(** * VolatilityGame: the day-by-day market making simulation

    A shallow embedding of [market.py], [challenges.py], [market_maker.py],
    [game.py], [main.py] and the arithmetic of [utils.py], followed by the
    properties of the simulation loop.

    Reading conventions.
    - A Python [float] is read as an exact rational ([Qc], rationals in
      lowest terms, so that equal numbers are equal terms).  Rounding,
      infinities and NaN of IEEE binary64 are outside this reading; the
      properties stated in it are orderings, floors and bounds that
      rounding to nearest keeps.
    - Where the last digit decides (the guards of [Game.simulate_trades],
      the quotients that turn a challenge into factors), the code is read
      a second time on binary64 numbers, in the module [Binary64].
    - A Python [int] is a [Z].
    - The calls into [random] return values the program does not control;
      the values drawn on one day are collected in a record [Draws], and a
      run receives one such record per day.
    - [math.exp] is a parameter of the development ([Libm]): it either
      returns a number or raises [OverflowError].
    - [logging.info] writes to a side channel that no method reads back;
      those calls are left out. [print] in [get_market_maker_class] is kept
      as a list of emitted lines. *)

From Stdlib Require Import ZArith QArith Qcanon List String Lia Lqa SpecFloat.
From stdpp Require Import gmap strings.
Import ListNotations.

Open Scope Z_scope.
Open Scope Qc_scope.

Abbreviation float := Qc.

(** ** Python built-ins used by the program *)

Module Py.

(** Exceptions that the modelled statements can raise. *)
Inductive exn : Type :=
| ZeroDivisionError
| IndexError
| TypeError.

Inductive result (A : Type) : Type :=
| Ok (a : A)
| Raise (e : exn).
Arguments Ok {A} a.
Arguments Raise {A} e.

(** Sequencing: an exception raised by the first statement propagates. *)
#[global] Instance result_bind : MBind result := fun A B k r =>
  match r with
  | Ok a => k a
  | Raise e => Raise e
  end.

(** [max(a, b)]: the first argument is kept unless the second is greater. *)
Definition max (a b : float) : float := if bool_decide (a < b) then b else a.

(** [min(a, b)]: the first argument is kept unless the second is smaller. *)
Definition min (a b : float) : float := if bool_decide (b < a) then b else a.

(** [x / y] on floats. *)
Definition div (x y : float) : result float :=
  if bool_decide (y = 0) then Raise ZeroDivisionError else Ok (x / y).

(** An [int] operand of a float operation. *)
Definition of_int (n : Z) : float := Q2Qc (inject_Z n).

(** [range(lo, hi)]. *)
Definition range (lo hi : Z) : list Z :=
  map (fun i : nat => (lo + Z.of_nat i)%Z) (seq 0 (Z.to_nat (hi - lo))).

(** [sum(...)] over ints. *)
Definition sum (l : list Z) : Z := fold_left Z.add l 0%Z.

End Py.

Import Py.

(** ** The [random] and [math] modules *)

Module Random.

(** What the calls into [random] return during one simulated day. *)
Record Draws : Type := {
  (** [random.gauss(0, volatility)] in [Market.update] *)
  gauss : float;
  (** index picked by [random.choice(self.challenges)] *)
  choice_index : nat;
  (** [random.uniform(0.9, 1.1)] in the Economic News effect *)
  uniform_price : float;
  (** [random.uniform(0.8, 1.2)] in the Economic News effect *)
  uniform_volatility : float;
  (** [random.random()] in [Game.simulate_trades] *)
  random : float;
  (** [random.choice([True, False])] in [Game.simulate_trades] *)
  choice_bool : bool
}.

(** [random.choice(seq)]: [seq[k]] for an index [k] below [len(seq)];
    an empty sequence raises [IndexError]. *)
Definition choice {A : Type} (k : nat) (seq : list A) : result A :=
  match nth_error seq (k mod length seq) with
  | Some a => Ok a
  | None => Raise IndexError
  end.

End Random.

(** [math.exp]: [None] stands for [OverflowError]. *)
Class Libm : Type := math_exp : float -> option float.

(** ** market.py *)

Record MarketState : Type := {
  price : float;
  volatility : float
}.

Module Market.

Record t : Type := {
  state : MarketState;
  day : Z
}.

(** [Market.__init__] *)
Definition init (initial_price initial_volatility : float) : t :=
  {| state := {| price := initial_price; volatility := initial_volatility |};
     day := 0 |}.

(** [Market.update] *)
Definition update `{Libm} (d : Random.Draws) (self : t) : t :=
  let day' := (day self + 1)%Z in
  let daily_return := Random.gauss d in
  let price' :=
    match math_exp daily_return with
    | Some price_factor =>
        let price_factor := Py.max (Q2Qc 0.5) (Py.min (Q2Qc 2.0) price_factor) in
        price (state self) * price_factor
    | None =>
        if bool_decide (of_int 0 < daily_return)
        then price (state self) * Q2Qc 2.0
        else price (state self) * Q2Qc 0.5
    end in
  {| state := {| price := Py.max (Q2Qc 0.01) price';
                 volatility := volatility (state self) |};
     day := day' |}.

(** The factor [update] multiplies the price by: the exponential of the
    drawn return clamped to [0.5, 2.0] in the [try] branch, [2.0] or [0.5]
    in the [except OverflowError] branch. *)
Definition applied_factor `{Libm} (d : Random.Draws) : float :=
  match math_exp (Random.gauss d) with
  | Some price_factor => Py.max (Q2Qc 0.5) (Py.min (Q2Qc 2.0) price_factor)
  | None => if bool_decide (of_int 0 < Random.gauss d) then Q2Qc 2.0 else Q2Qc 0.5
  end.

(** [Market.apply_challenge] *)
Definition apply_challenge (price_factor volatility_factor : float) (self : t) : t :=
  let price' := price (state self) * price_factor in
  let volatility' := volatility (state self) * volatility_factor in
  {| state := {| price := Py.max (Q2Qc 0.01) price';
                 volatility := Py.max (Q2Qc 0.001) volatility' |};
     day := day self |}.

(** [Market.get_state] *)
Definition get_state (self : t) : MarketState := state self.

End Market.

(** ** challenges.py *)

Module Challenge.

(** [Challenge(name, description, effect)]. The effect receives the day's
    draws because one of the predefined effects calls [random.uniform]. *)
Record t : Type := mk {
  name : string;
  description : string;
  effect : Random.Draws -> float -> float -> float * float
}.

End Challenge.

Module ChallengeManager.

Record t : Type := {
  challenges : list Challenge.t
}.

(** [ChallengeManager.__init__] *)
Definition init : t :=
  {| challenges := [
       Challenge.mk "Volatility Spike"
         "Market volatility suddenly increases."
         (fun _ p v => (p, v * of_int 2));
       Challenge.mk "Market Crash"
         "A sudden downturn causes prices to plummet."
         (fun _ p v => (p * Q2Qc 0.8, v * Q2Qc 1.5));
       Challenge.mk "Bull Run"
         "A surge of optimism drives prices up."
         (fun _ p v => (p * Q2Qc 1.2, v * Q2Qc 1.2));
       Challenge.mk "Calm Markets"
         "Volatility decreases as markets enter a calm period."
         (fun _ p v => (p, v * Q2Qc 0.5));
       Challenge.mk "Economic News"
         "Breaking economic news causes price fluctuation."
         (fun d p v => (p * Random.uniform_price d, v * Random.uniform_volatility d))
     ] |}.

(** [ChallengeManager.get_random_challenge] *)
Definition get_random_challenge (d : Random.Draws) (self : t) : result Challenge.t :=
  Random.choice (Random.choice_index d) (challenges self).

(** [ChallengeManager.apply_challenge] *)
Definition apply_challenge (d : Random.Draws) (price volatility : float) (self : t)
  : result (float * float * Challenge.t) :=
  challenge ← get_random_challenge d self;
  let '(new_price, new_volatility) := Challenge.effect challenge d price volatility in
  Ok (new_price, new_volatility, challenge).

End ChallengeManager.

(** ** market_maker.py *)

(** The abstract base class [MarketMaker]: one method, [make_market]. *)
Class MarketMaker (M : Type) : Type :=
  make_market : M -> float -> float -> float * float.

Module SimpleMarketMaker.

Record t : Type := {
  spread_multiplier : float
}.

(** [SimpleMarketMaker.__init__(spread_multiplier)] *)
Definition init (spread_multiplier : float) : t :=
  {| spread_multiplier := spread_multiplier |}.

(** [SimpleMarketMaker()], with the default [spread_multiplier = 0.1] *)
Definition default : t := init (Q2Qc 0.1).

(** [SimpleMarketMaker.make_market] *)
#[global] Instance make_market : MarketMaker t := fun self price volatility =>
  let spread := price * volatility * spread_multiplier self in
  let bid := Py.max (Q2Qc 0.01) (price - spread) in
  let ask := price + spread in
  (bid, ask).

End SimpleMarketMaker.

(** What the names of the module [market_maker] are bound to.
    [Module_attribute] stands for the values of the names the interpreter
    binds in every module: strings, [None], the loader, the module spec and
    the dictionary of built-ins, none of which can be called. *)
Inductive PyObject : Type :=
| Module_attribute
| Class_ABC
| Function_abstractmethod
| Class_MarketMaker
| Class_SimpleMarketMaker
| Function_get_market_maker_class.

(** The namespace [globals()] returns inside [market_maker.py] once the
    module is imported: the names the interpreter binds in every module,
    then the bindings the statements of the file create, in the order of
    the file (the two imported names, the two classes and the function). *)
Definition market_maker_globals : gmap string PyObject :=
  list_to_map [
    ("__name__", Module_attribute);
    ("__doc__", Module_attribute);
    ("__package__", Module_attribute);
    ("__loader__", Module_attribute);
    ("__spec__", Module_attribute);
    ("__file__", Module_attribute);
    ("__cached__", Module_attribute);
    ("__builtins__", Module_attribute);
    ("ABC", Class_ABC);
    ("abstractmethod", Function_abstractmethod);
    ("MarketMaker", Class_MarketMaker);
    ("SimpleMarketMaker", Class_SimpleMarketMaker);
    ("get_market_maker_class", Function_get_market_maker_class)
  ].

(** [get_market_maker_class], over the namespace [globals()] returns; the
    second component lists the lines printed. *)
Definition get_market_maker_class (globals : gmap string PyObject) (class_name : string)
  : PyObject * list string :=
  match globals !! class_name with
  | Some cls => (cls, [])
  | None =>
      (Class_SimpleMarketMaker,
       [("Error: MarketMaker class '" ++ class_name ++ "' not found.")%string;
        "Using SimpleMarketMaker as fallback."])
  end.

(** ** game.py *)

Module TradeResult.

(** [TradeResult(trade_type, price, quantity)] *)
Record t : Type := mk {
  trade_type : string;
  price : float;
  quantity : Z
}.

End TradeResult.

(** One entry of [daily_results]: [(day, bid, ask, pnl, challenge)]. *)
Abbreviation DayRecord := (Z * float * float * float * string)%type.

Definition record_day (r : DayRecord) : Z := let '(day, _, _, _, _) := r in day.
Definition record_pnl (r : DayRecord) : float := let '(_, _, _, pnl, _) := r in pnl.

Module Game.

Section WithMarketMaker.

Context {M : Type} `{MarketMaker M} `{Libm}.

Record t : Type := {
  market : Market.t;
  challenge_manager : ChallengeManager.t;
  market_maker : M;
  days : Z;
  total_pnl : float;
  daily_results : list DayRecord
}.

(** [Game.__init__] *)
Definition init (market : Market.t) (challenge_manager : ChallengeManager.t)
    (market_maker : M) (days : Z) : t :=
  {| market := market; challenge_manager := challenge_manager;
     market_maker := market_maker; days := days;
     total_pnl := Q2Qc 0.0; daily_results := [] |}.

Definition set_market (m : Market.t) (self : t) : t :=
  {| market := m; challenge_manager := challenge_manager self;
     market_maker := market_maker self; days := days self;
     total_pnl := total_pnl self; daily_results := daily_results self |}.

Definition set_total_pnl (x : float) (self : t) : t :=
  {| market := market self; challenge_manager := challenge_manager self;
     market_maker := market_maker self; days := days self;
     total_pnl := x; daily_results := daily_results self |}.

Definition set_daily_results (l : list DayRecord) (self : t) : t :=
  {| market := market self; challenge_manager := challenge_manager self;
     market_maker := market_maker self; days := days self;
     total_pnl := total_pnl self; daily_results := l |}.

(** [Game.simulate_trades], in the exact reading: the two products of
    the guards are not rounded here ([Binary64.Game.simulate_trades] has
    them on doubles). *)
Definition simulate_trades (d : Random.Draws) (bid ask : float) (self : t)
  : list TradeResult.t :=
  let trades := [] in
  let market_price := price (Market.get_state (market self)) in
  let buffer := Q2Qc 0.001 in
  let trades :=
    if bool_decide (market_price <= bid * (of_int 1 + buffer))
    then trades ++ [TradeResult.mk "buy" bid 1]
    else if bool_decide (ask * (of_int 1 - buffer) <= market_price)
    then trades ++ [TradeResult.mk "sell" ask 1]
    else trades in
  let trades :=
    if bool_decide (Random.random d < Q2Qc 0.1)
    then if Random.choice_bool d
         then trades ++ [TradeResult.mk "buy" bid 1]
         else trades ++ [TradeResult.mk "sell" ask 1]
    else trades in
  trades.

(** [Game.calculate_daily_pnl] *)
Definition calculate_daily_pnl (trades : list TradeResult.t) (self : t) : float :=
  let market_price := price (Market.get_state (market self)) in
  fold_left
    (fun daily_pnl trade =>
       if String.eqb (TradeResult.trade_type trade) "buy"
       then daily_pnl + (market_price - TradeResult.price trade)
       else daily_pnl + (TradeResult.price trade - market_price))
    trades (Q2Qc 0.0).

(** [Game.log_daily_results] *)
Definition log_daily_results (day : Z) (bid ask pnl : float) (challenge : string)
    (self : t) : t :=
  set_daily_results (daily_results self ++ [(day, bid, ask, pnl, challenge)]) self.

(** Line 52 of [game.py]: the two quotients are evaluated left to right,
    then [Market.apply_challenge] is called on them. In the exact reading
    the quotients are not rounded ([Binary64.Game.apply_relative] has them
    on doubles). *)
Definition apply_relative (new_price new_volatility : float) (m : Market.t)
  : result Market.t :=
  price_factor ← Py.div new_price (price (Market.get_state m));
  volatility_factor ← Py.div new_volatility (volatility (Market.get_state m));
  Ok (Market.apply_challenge price_factor volatility_factor m).

(** [Game.simulate_day] *)
Definition simulate_day (day : Z) (d : Random.Draws) (self : t) : result (float * t) :=
  let self := set_market (Market.update d (market self)) self in
  '(new_price, new_volatility, challenge) ←
    ChallengeManager.apply_challenge d
      (price (Market.get_state (market self)))
      (volatility (Market.get_state (market self)))
      (challenge_manager self);
  m ← apply_relative new_price new_volatility (market self);
  let self := set_market m self in
  let '(bid, ask) :=
    make_market (market_maker self)
      (price (Market.get_state (market self)))
      (volatility (Market.get_state (market self))) in
  let trades := simulate_trades d bid ask self in
  let daily_pnl := calculate_daily_pnl trades self in
  let self := log_daily_results day bid ask daily_pnl (Challenge.name challenge) self in
  Ok (daily_pnl, self).

(** [Game.get_max_consecutive_positive_days]; the loop state is
    [(max_streak, current_streak)]. *)
Definition streak_step (st : Z * Z) (r : DayRecord) : Z * Z :=
  let '(max_streak, current_streak) := st in
  if bool_decide (of_int 0 < record_pnl r)
  then let current_streak := (current_streak + 1)%Z in
       (Z.max max_streak current_streak, current_streak)
  else (max_streak, 0%Z).

Definition streak_loop (results : list DayRecord) : Z * Z :=
  fold_left streak_step results (0%Z, 0%Z).

Definition get_max_consecutive_positive_days (self : t) : Z :=
  fst (streak_loop (daily_results self)).

(** [Game.calculate_score] *)
Definition calculate_score (self : t) : float :=
  let score := total_pnl self in
  let negative_pnl_days :=
    Py.sum (map (fun _ => 1%Z)
                (filter (fun r => bool_decide (record_pnl r < of_int 0))
                        (daily_results self))) in
  let score := score - of_int (negative_pnl_days * 10) in
  let consecutive_positive_days := get_max_consecutive_positive_days self in
  let score := score + of_int (consecutive_positive_days * 5) in
  Py.max (of_int 0) score.

(** The body of the [for] loop of [run], over the days still to come. *)
Fixpoint run_loop (oracle : Z -> Random.Draws) (l : list Z) (self : t) : result t :=
  match l with
  | [] => Ok self
  | day :: l =>
      '(daily_pnl, self) ← simulate_day day (oracle day) self;
      let self := set_total_pnl (total_pnl self + daily_pnl) self in
      run_loop oracle l self
  end.

(** [Game.run]: the score and the game object as the run leaves it. *)
Definition run (oracle : Z -> Random.Draws) (self : t) : result (float * t) :=
  self ← run_loop oracle (Py.range 1 (days self + 1)) self;
  Ok (calculate_score self, self).

End WithMarketMaker.

Arguments t M : clear implicits.

End Game.

(** ** main.py *)

(** What [MarketMakerClass()] in [main] creates. *)
Inductive PyInstance : Type :=
| Instance_SimpleMarketMaker (market_maker : SimpleMarketMaker.t)
| Instance_ABC.

(** [MarketMakerClass()]: the resolved object called with no argument.
    [SimpleMarketMaker()] takes the default multiplier; [MarketMaker] has
    an abstract method and cannot be instantiated; [ABC()] creates an object
    with no [make_market]; both functions take one required argument; a
    module attribute is not callable. *)
Definition call_without_arguments (cls : PyObject) : result PyInstance :=
  match cls with
  | Module_attribute => Raise TypeError
  | Class_SimpleMarketMaker => Ok (Instance_SimpleMarketMaker SimpleMarketMaker.default)
  | Class_ABC => Ok Instance_ABC
  | Class_MarketMaker => Raise TypeError
  | Function_abstractmethod => Raise TypeError
  | Function_get_market_maker_class => Raise TypeError
  end.

(** The first lines of [main] after the arguments are parsed: resolve the
    name, then create the market maker. *)
Definition resolve_market_maker (globals : gmap string PyObject) (class_name : string)
  : result PyInstance * list string :=
  let '(MarketMakerClass, printed) := get_market_maker_class globals class_name in
  (call_without_arguments MarketMakerClass, printed).


(** ** config.py *)

Module Config.

Definition INITIAL_PRICE : float := Q2Qc 100.0.
Definition INITIAL_VOLATILITY : float := Q2Qc 0.02.
Definition SIMULATION_DAYS : Z := 63.

End Config.

(** ** main.py, from the game to the final score *)

(** How [main] can end without a score. *)
Inductive MainError : Type :=
| MarketMakerClass_raised (e : exn)
| AttributeError_make_market
| Game_run_raised (e : exn).

(** [main] from [get_market_maker_class] on: the outcome and the lines
    printed before the run. The clocks and the final report are left out.
    A market maker created from [ABC] has no [make_market]: the first of the
    63 days raises [AttributeError] when [simulate_day] looks the method up,
    after [update] and the challenge, which do not raise on the configured
    market. *)
Definition main `{Libm} (globals : gmap string PyObject) (oracle : Z -> Random.Draws)
    (market_maker_argument : string)
  : (MainError + float * Game.t SimpleMarketMaker.t) * list string :=
  let market := Market.init Config.INITIAL_PRICE Config.INITIAL_VOLATILITY in
  let challenge_manager := ChallengeManager.init in
  let '(created, printed) := resolve_market_maker globals market_maker_argument in
  (match created with
   | Raise e => inl (MarketMakerClass_raised e)
   | Ok Instance_ABC => inl AttributeError_make_market
   | Ok (Instance_SimpleMarketMaker market_maker) =>
       let game := Game.init market challenge_manager market_maker Config.SIMULATION_DAYS in
       match Game.run oracle game with
       | Ok final => inr final
       | Raise e => inl (Game_run_raised e)
       end
   end, printed).

(** ** utils.py *)

(** A list comprehension whose element expression can raise. *)
Fixpoint comprehension {A B : Type} (f : A -> result B) (l : list A) : result (list B) :=
  match l with
  | [] => Ok []
  | x :: l =>
      y ← f x;
      ys ← comprehension f l;
      Ok (y :: ys)
  end.

(** [np.log], a parameter as [math.exp] is. *)
Class Numpy : Type := np_log : float -> float.

Module Utils.

(** [calculate_returns]: [prices[i] / prices[i-1]] for [i] from 1 on, over
    a list of Python floats. *)
Fixpoint calculate_returns `{Numpy} (prices : list float) : result (list float) :=
  match prices with
  | [] => Ok []
  | previous :: rest =>
      match rest with
      | [] => Ok []
      | current :: _ =>
          ratio ← Py.div current previous;
          returns ← calculate_returns rest;
          Ok (np_log ratio :: returns)
      end
  end.

(** One turn of the loop of [max_drawdown]; the state is [(peak, max_dd)]. *)
Definition max_drawdown_step (st : float * float) (value : float)
  : result (float * float) :=
  let '(peak, max_dd) := st in
  let peak := if bool_decide (peak < value) then value else peak in
  dd ← Py.div (peak - value) peak;
  let max_dd := if bool_decide (max_dd < dd) then dd else max_dd in
  Ok (peak, max_dd).

Fixpoint max_drawdown_loop (pnl : list float) (st : float * float)
  : result (float * float) :=
  match pnl with
  | [] => Ok st
  | value :: pnl =>
      st ← max_drawdown_step st value;
      max_drawdown_loop pnl st
  end.

(** [max_drawdown]; [pnl[0]] raises [IndexError] on an empty list. *)
Definition max_drawdown (pnl : list float) : result float :=
  match pnl with
  | [] => Raise IndexError
  | first :: _ =>
      st ← max_drawdown_loop pnl (first, of_int 0);
      Ok (snd st)
  end.

(** [calculate_bid_ask_spread] *)
Definition calculate_bid_ask_spread (bid ask : float) : result float :=
  mid_price ← Py.div (bid + ask) (of_int 2);
  Py.div (ask - bid) mid_price.

(** [calculate_market_impact] *)
Definition calculate_market_impact (trade_price market_price : float) : result float :=
  Py.div (trade_price - market_price) market_price.

(** [simulate_order_book]; [bid_quantity i] and [ask_quantity i] are the
    values [np.random.randint(1, 100)] returns at level [i] of each side. *)
Definition simulate_order_book (bid_quantity ask_quantity : Z -> Z)
    (mid_price : float) (depth : Z) (max_spread : float)
  : result (list (float * Z) * list (float * Z)) :=
  bids ← comprehension
    (fun i : Z =>
       step ← Py.div (max_spread * of_int (i + 1)) (of_int depth);
       Ok (mid_price * (of_int 1 - step), bid_quantity i))
    (Py.range 0 depth);
  asks ← comprehension
    (fun i : Z =>
       step ← Py.div (max_spread * of_int (i + 1)) (of_int depth);
       Ok (mid_price * (of_int 1 + step), ask_quantity i))
    (Py.range 0 depth);
  Ok (bids, asks).

End Utils.

(** * The program on IEEE 754 doubles

    The sections above read a [float] as an exact rational. Two places of
    the program depend on how a product or a quotient is rounded: the
    guards of [Game.simulate_trades] and the quotients on line 52 of
    [game.py]. This section reads them on binary64 numbers, with the
    operations of [SpecFloat] (round to nearest, ties to even, signed
    zeros, infinities and NaN). *)

Module Binary64.

Definition prec : Z := 53.
Definition emax : Z := 1024.

(** A Python [float]. *)
Abbreviation double := spec_float.

(** An [int] operand of a float operation. *)
Definition of_int (n : Z) : double := binary_normalize prec emax n 0 false.

(** A decimal literal with the value [numerator / denominator], both below
    [2^53]: Python reads it as the double nearest to that value, which is
    the correctly rounded quotient of the two integers. *)
Definition decimal (numerator denominator : Z) : double :=
  SFdiv prec emax (of_int numerator) (of_int denominator).

Definition add : double -> double -> double := SFadd prec emax.
Definition sub : double -> double -> double := SFsub prec emax.
Definition mul : double -> double -> double := SFmul prec emax.

(** [x < y] and [x <= y]; both are false when an operand is NaN. *)
Definition lt (x y : double) : bool := SFltb x y.
Definition le (x y : double) : bool := SFleb x y.

(** [max(a, b)]: the first argument is kept unless the second is greater. *)
Definition max (a b : double) : double := if lt a b then b else a.

(** [x / y] on floats: a zero divisor of either sign raises. *)
Definition div (x y : double) : result double :=
  match y with
  | S754_zero _ => Raise ZeroDivisionError
  | _ => Ok (SFdiv prec emax x y)
  end.

(** ** market.py *)

Record MarketState : Type := {
  price : double;
  volatility : double
}.

Module Market.

Record t : Type := {
  state : MarketState;
  day : Z
}.

(** [Market.apply_challenge] *)
Definition apply_challenge (price_factor volatility_factor : double) (self : t) : t :=
  let price' := mul (price (state self)) price_factor in
  let volatility' := mul (volatility (state self)) volatility_factor in
  {| state := {| price := max (decimal 1 100) price';
                 volatility := max (decimal 1 1000) volatility' |};
     day := day self |}.

(** [Market.get_state] *)
Definition get_state (self : t) : MarketState := state self.

End Market.

(** ** game.py *)

Module TradeResult.

(** [TradeResult(trade_type, price, quantity)] *)
Record t : Type := mk {
  trade_type : string;
  price : double;
  quantity : Z
}.

End TradeResult.

Module Game.

(** [Game.simulate_trades], on the market of the game; [random] is the
    value of [random.random()] and [choice_bool] the value of
    [random.choice([True, False])]. *)
Definition simulate_trades (random : double) (choice_bool : bool) (bid ask : double)
    (market : Market.t) : list TradeResult.t :=
  let trades := [] in
  let market_price := price (Market.get_state market) in
  let buffer := decimal 1 1000 in
  let trades :=
    if le market_price (mul bid (add (of_int 1) buffer))
    then trades ++ [TradeResult.mk "buy" bid 1]
    else if le (mul ask (sub (of_int 1) buffer)) market_price
    then trades ++ [TradeResult.mk "sell" ask 1]
    else trades in
  let trades :=
    if lt random (decimal 1 10)
    then if choice_bool
         then trades ++ [TradeResult.mk "buy" bid 1]
         else trades ++ [TradeResult.mk "sell" ask 1]
    else trades in
  trades.

(** Line 52 of [game.py]: the two quotients are evaluated left to right,
    then [Market.apply_challenge] is called on them. *)
Definition apply_relative (new_price new_volatility : double) (m : Market.t)
  : result Market.t :=
  price_factor ← div new_price (price (Market.get_state m));
  volatility_factor ← div new_volatility (volatility (Market.get_state m));
  Ok (Market.apply_challenge price_factor volatility_factor m).

End Game.

(** ** The values of [random.random()] *)

Module Random.

(** [random.random()] builds its result from 53 random bits: it returns
    the double [k * 2^-53] for an integer [0 <= k < 2^53], and every [k]
    is as likely as every other. *)
Definition random_values : Z := 2 ^ 53.

Definition random (k : Z) : double := binary_normalize prec emax k (-53) false.

End Random.

(** ** Vocabulary *)

Definition buy_at (bid : double) : TradeResult.t := TradeResult.mk "buy" bid 1.
Definition sell_at (ask : double) : TradeResult.t := TradeResult.mk "sell" ask 1.

(** The number of values of [random.random()] below 0.1. *)
Definition random_trade_values : Z := 900719925474100.

(** The spec's wording of the perturbation, on doubles: the targets are
    set directly, then floored at 0.01 and 0.001. *)
Definition set_targets (new_price new_volatility : double) (m : Market.t) : Market.t :=
  {| Market.state := {| price := max (decimal 1 100) new_price;
                        volatility := max (decimal 1 1000) new_volatility |};
     Market.day := Market.day m |}.


(** A market with price [p] and volatility 0.02. *)
Definition market_at (p : double) : Market.t :=
  {| Market.state := {| price := p; volatility := decimal 2 100 |};
     Market.day := 1 |}.

End Binary64.

(** * Vocabulary of the properties *)

Definition market_invariant (s : MarketState) : Prop :=
  Q2Qc 0.01 <= price s /\ Q2Qc 0.001 <= volatility s.

Definition buy_at (bid : float) : TradeResult.t := TradeResult.mk "buy" bid 1.
Definition sell_at (ask : float) : TradeResult.t := TradeResult.mk "sell" ask 1.

Definition positive_day (r : DayRecord) : Prop := 0 < record_pnl r.

(** [seg] is a stretch of consecutive entries of [l], each with [pnl > 0]. *)
Definition positive_run (l seg : list DayRecord) : Prop :=
  (exists before after, l = before ++ seg ++ after) /\ Forall positive_day seg.

(** [n] is the length of a longest such stretch. *)
Definition longest_positive_run (l : list DayRecord) (n : Z) : Prop :=
  (exists seg, positive_run l seg /\ Z.of_nat (length seg) = n)
  /\ (forall seg, positive_run l seg -> (Z.of_nat (length seg) <= n)%Z).

(** The same for the stretches that end with the last entry of [l]. *)
Definition positive_tail (l seg : list DayRecord) : Prop :=
  (exists before, l = before ++ seg) /\ Forall positive_day seg.

Definition longest_positive_tail (l : list DayRecord) (n : Z) : Prop :=
  (exists seg, positive_tail l seg /\ Z.of_nat (length seg) = n)
  /\ (forall seg, positive_tail l seg -> (Z.of_nat (length seg) <= n)%Z).

(** A log with the P&L sequence 1, 2, -1, 3, 4, 5, -1. *)
Definition example_log : list DayRecord :=
  [ (1%Z, 0, 0, Q2Qc 1, "Bull Run"); (2%Z, 0, 0, Q2Qc 2, "Bull Run");
    (3%Z, 0, 0, Q2Qc (-1), "Market Crash");
    (4%Z, 0, 0, Q2Qc 3, "Bull Run"); (5%Z, 0, 0, Q2Qc 4, "Bull Run");
    (6%Z, 0, 0, Q2Qc 5, "Bull Run");
    (7%Z, 0, 0, Q2Qc (-1), "Market Crash") ].

(** A log with the P&L sequence 1, 0, 1. *)
Definition flat_day_log : list DayRecord :=
  [ (1%Z, 0, 0, Q2Qc 1, "Bull Run"); (2%Z, 0, 0, Q2Qc 0, "Calm Markets");
    (3%Z, 0, 0, Q2Qc 1, "Bull Run") ].

(** The spec's wording of the perturbation: the challenge's
    target values are set directly, then the price is floored at 0.01 and
    the volatility at 0.001. *)
Definition set_targets (new_price new_volatility : float) (m : Market.t) : Market.t :=
  {| Market.state := {| price := Py.max (Q2Qc 0.01) new_price;
                        volatility := Py.max (Q2Qc 0.001) new_volatility |};
     Market.day := Market.day m |}.

(** What one successful day does to the game object. *)
Definition day_outcome {M : Type} `{MarketMaker M} `{Libm}
    (day : Z) (d : Random.Draws) (challenge : Challenge.t) (g : Game.t M)
  : float * Game.t M :=
  let m1 := Market.update d (Game.market g) in
  let targets :=
    Challenge.effect challenge d (price (Market.state m1)) (volatility (Market.state m1)) in
  let m2 := set_targets (fst targets) (snd targets) m1 in
  let g2 := Game.set_market m2 g in
  let quotes := make_market (Game.market_maker g)
                  (price (Market.state m2)) (volatility (Market.state m2)) in
  let daily_pnl :=
    Game.calculate_daily_pnl (Game.simulate_trades d (fst quotes) (snd quotes) g2) g2 in
  (daily_pnl,
   Game.set_daily_results
     (Game.daily_results g
      ++ [(day, fst quotes, snd quotes, daily_pnl, Challenge.name challenge)]) g2).

(** Number of recorded days with [pnl < 0]. *)
Definition negative_days (l : list DayRecord) : Z :=
  Z.of_nat (length (filter (fun r => bool_decide (record_pnl r < 0)) l)).

(** The spec's wording of the score: [T - 10 * N + 5 * S], floored at 0. *)
Definition score_formula (T : float) (N S : Z) : float :=
  Py.max 0 (T - of_int 10 * of_int N + of_int 5 * of_int S).

(** A game object with total P&L 100, three losing days and a longest
    winning streak of four days. *)
Definition scored_game : Game.t SimpleMarketMaker.t :=
  Game.set_total_pnl (Q2Qc 100)
    (Game.set_daily_results
       [ (1%Z, 0, 0, Q2Qc 30, "Bull Run"); (2%Z, 0, 0, Q2Qc 30, "Bull Run");
         (3%Z, 0, 0, Q2Qc 30, "Bull Run"); (4%Z, 0, 0, Q2Qc 40, "Bull Run");
         (5%Z, 0, 0, Q2Qc (-10), "Market Crash"); (6%Z, 0, 0, Q2Qc (-10), "Market Crash");
         (7%Z, 0, 0, Q2Qc (-10), "Market Crash") ]
       (Game.init (Market.init (Q2Qc 100.0) (Q2Qc 0.02)) ChallengeManager.init
          SimpleMarketMaker.default 7)).

(** ** Sample inputs *)

(** A stand-in for [math.exp]: [OverflowError] above 709, [1 + r] below. *)
Definition sample_exp : Libm :=
  fun r => if bool_decide (Q2Qc 709 < r) then None else Some (1 + r).

(** Draws of a quiet day: return 0, the second challenge of the catalogue,
    a random trade on the buy side. *)
Definition sample_draws : Random.Draws :=
  {| Random.gauss := 0; Random.choice_index := 1;
     Random.uniform_price := 1; Random.uniform_volatility := 1;
     Random.random := Q2Qc 0.05; Random.choice_bool := true |}.

(** Draws of a day on which the exponential overflows. *)
Definition overflow_draws : Random.Draws :=
  {| Random.gauss := Q2Qc 710; Random.choice_index := 0;
     Random.uniform_price := 1; Random.uniform_volatility := 1;
     Random.random := Q2Qc 0.5; Random.choice_bool := false |}.

Definition sample_oracle : Z -> Random.Draws := fun _ => sample_draws.

(** The game [main] sets up, cut to three days. *)
Definition sample_game : Game.t SimpleMarketMaker.t :=
  Game.init (Market.init (Q2Qc 100.0) (Q2Qc 0.02)) ChallengeManager.init
    SimpleMarketMaker.default 3.

(** ** Vocabulary of the further properties *)

Definition record_bid (r : DayRecord) : float := let '(_, bid, _, _, _) := r in bid.
Definition record_ask (r : DayRecord) : float := let '(_, _, ask, _, _) := r in ask.

(** A trade made at one of the two quotes. *)
Definition trade_at_quotes (bid ask : float) (t : TradeResult.t) : Prop :=
  t = buy_at bid \/ t = sell_at ask.

(** A record with uncrossed quotes above the floor and no loss. *)
Definition sound_record (r : DayRecord) : Prop :=
  Q2Qc 0.01 <= record_bid r /\ record_bid r <= record_ask r /\ 0 <= record_pnl r.

(** The two values of [random.uniform] lie within the bounds they are
    called with. *)
Definition uniform_in_bounds (d : Random.Draws) : Prop :=
  Q2Qc 0.9 <= Random.uniform_price d <= Q2Qc 1.1
  /\ Q2Qc 0.8 <= Random.uniform_volatility d <= Q2Qc 1.2.

(** [x] is the greatest element of [l]. *)
Definition greatest (l : list float) (x : float) : Prop :=
  In x l /\ Forall (fun y => y <= x) l.

(** [dd] is the drawdown at some point of the series [pnl]: the fall from
    the greatest value so far to the current value, relative to that
    greatest value. *)
Definition drawdown_at (pnl : list float) (dd : float) : Prop :=
  exists (before after : list float) (value peak : float),
    pnl = before ++ value :: after
    /\ greatest (before ++ [value]) peak
    /\ dd = (peak - value) / peak.

(** No value of the series is below an earlier one. *)
Definition never_falls (pnl : list float) : Prop :=
  forall (before between after : list float) (x y : float),
    pnl = before ++ x :: between ++ y :: after -> x <= y.

(** The loop invariant of [max_drawdown], for a series that starts above
    zero: after the values [done], the state holds their greatest value and
    the greatest drawdown among them (or 0). *)
Definition drawdown_invariant (done : list float) (st : float * float) : Prop :=
  greatest done (fst st)
  /\ 0 < fst st
  /\ 0 <= snd st
  /\ (forall dd : float, drawdown_at done dd -> dd <= snd st)
  /\ (snd st = 0 \/ drawdown_at done (snd st)).

(** * Properties of the simulation *)

(** ** Order facts on the numbers *)

(** Turns a goal on [Qc] into the same goal on [Q], where [lra] and [nra]
    apply. *)
Ltac qc_to_q :=
  unfold Qcle, Qclt, Qcminus in *;
  unfold Qcplus, Qcopp, Qcmult, of_int in *;
  cbn [this Q2Qc] in *;
  rewrite ?Qred_correct in *.

Lemma max_ge_left (a b : float) : a <= Py.max a b.
Proof.
  unfold Py.max. case_bool_decide as Hab.
  - apply Qclt_le_weak, Hab.
  - apply Qcle_refl.
Qed.

Lemma max_ge_right (a b : float) : b <= Py.max a b.
Proof.
  unfold Py.max. case_bool_decide as Hab.
  - apply Qcle_refl.
  - apply Qcnot_lt_le, Hab.
Qed.


Lemma max_left (a b : float) : b <= a -> Py.max a b = a.
Proof.
  intros Hba. unfold Py.max. case_bool_decide as Hlt; [|reflexivity].
  exfalso. exact (Qclt_not_le _ _ Hlt Hba).
Qed.

Lemma min_le_left (a b : float) : Py.min a b <= a.
Proof.
  unfold Py.min. case_bool_decide as Hba.
  - apply Qclt_le_weak, Hba.
  - apply Qcle_refl.
Qed.

Lemma clamp_bounds (lo hi x : float) :
  lo <= hi -> lo <= Py.max lo (Py.min hi x) /\ Py.max lo (Py.min hi x) <= hi.
Proof.
  intros Hlh. split; [apply max_ge_left|].
  unfold Py.max. case_bool_decide; [apply min_le_left | exact Hlh].
Qed.

(** ** The market state *)

Lemma apply_challenge_floors (price_factor volatility_factor : float) (m : Market.t) :
  market_invariant (Market.state (Market.apply_challenge price_factor volatility_factor m)).
Proof. split; cbn; apply max_ge_left. Qed.

Lemma update_price_floor `{Libm} (d : Random.Draws) (m : Market.t) :
  Q2Qc 0.01 <= price (Market.state (Market.update d m)).
Proof. cbn. apply max_ge_left. Qed.

Lemma update_volatility `{Libm} (d : Random.Draws) (m : Market.t) :
  volatility (Market.state (Market.update d m)) = volatility (Market.state m).
Proof. reflexivity. Qed.

Lemma update_price `{Libm} (d : Random.Draws) (m : Market.t) :
  price (Market.state (Market.update d m))
  = Py.max (Q2Qc 0.01) (price (Market.state m) * Market.applied_factor d).
Proof.
  unfold Market.update, Market.applied_factor. cbn.
  destruct (math_exp (Random.gauss d)); [reflexivity|].
  case_bool_decide; reflexivity.
Qed.

Lemma applied_factor_bounds `{Libm} (d : Random.Draws) :
  Q2Qc 0.5 <= Market.applied_factor d /\ Market.applied_factor d <= Q2Qc 2.0.
Proof.
  unfold Market.applied_factor.
  destruct (math_exp (Random.gauss d)) as [e|].
  - apply clamp_bounds. discriminate.
  - case_bool_decide; split; discriminate.
Qed.

(** C3. The floor [price >= 0.01], [volatility >= 0.001] holds after
    [Market.apply_challenge] whatever the two factors and the state before
    were (zero and negative factors included), and [Market.update] keeps it. *)
Theorem market_invariant_preserved `{Libm} :
  (forall (price_factor volatility_factor : float) (m : Market.t),
      market_invariant
        (Market.state (Market.apply_challenge price_factor volatility_factor m)))
  /\ (forall (d : Random.Draws) (m : Market.t),
         market_invariant (Market.state m) ->
         market_invariant (Market.state (Market.update d m))).
Proof.
  split.
  - apply apply_challenge_floors.
  - intros d m [_ Hv]. split.
    + apply update_price_floor.
    + rewrite update_volatility. exact Hv.
Qed.

(** C4. One [Market.update] leaves the volatility as it was and the price at
    0.01 or more; the price is multiplied by a factor within [0.5, 2.0]
    before it is floored, and when [math.exp] overflows that factor is 2.0
    for a positive drawn return and 0.5 otherwise. *)
Theorem update_clamps_factor `{Libm} (d : Random.Draws) (m : Market.t) :
  volatility (Market.state (Market.update d m)) = volatility (Market.state m)
  /\ Q2Qc 0.01 <= price (Market.state (Market.update d m))
  /\ price (Market.state (Market.update d m))
     = Py.max (Q2Qc 0.01) (price (Market.state m) * Market.applied_factor d)
  /\ Q2Qc 0.5 <= Market.applied_factor d <= Q2Qc 2.0
  /\ (math_exp (Random.gauss d) = None ->
      Market.applied_factor d
      = if bool_decide (0 < Random.gauss d) then Q2Qc 2.0 else Q2Qc 0.5).
Proof.
  split; [apply update_volatility|].
  split; [apply update_price_floor|].
  split; [apply update_price|].
  split; [apply applied_factor_bounds|].
  intros Hexp. unfold Market.applied_factor. rewrite Hexp. reflexivity.
Qed.

(** ** Quotes *)

(** The quotes are the two formulas of [make_market], and the bid is never
    below 0.01. *)
Lemma make_market_formulas (mm : SimpleMarketMaker.t) (price volatility : float) :
  let spread := price * volatility * SimpleMarketMaker.spread_multiplier mm in
  make_market mm price volatility = (Py.max (Q2Qc 0.01) (price - spread), price + spread)
  /\ Q2Qc 0.01 <= fst (make_market mm price volatility).
Proof. split; [reflexivity | apply max_ge_left]. Qed.




(** ** Facts on doubles *)

Section Doubles.

Local Open Scope Z_scope.

(** [digits2_pos p] is the number of binary digits of [p]. *)
Lemma digits2_bounds (p : positive) :
  2 ^ (Zpos (digits2_pos p) - 1) <= Zpos p < 2 ^ Zpos (digits2_pos p).
Proof.
  induction p as [p IH|p IH|]; cbn [digits2_pos].
  - rewrite Pos2Z.inj_succ.
    replace (Z.succ (Zpos (digits2_pos p)) - 1) with (Z.succ (Zpos (digits2_pos p) - 1))
      by lia.
    rewrite !Z.pow_succ_r by lia. lia.
  - rewrite Pos2Z.inj_succ.
    replace (Z.succ (Zpos (digits2_pos p)) - 1) with (Z.succ (Zpos (digits2_pos p) - 1))
      by lia.
    rewrite !Z.pow_succ_r by lia. lia.
  - cbn. lia.
Qed.

Lemma digits2_below (p : positive) (d : Z) :
  Zpos (digits2_pos p) <= d -> Zpos p < 2 ^ d.
Proof.
  intros Hd. pose proof (digits2_bounds p) as [_ Hhi].
  apply Z.lt_le_trans with (2 ^ Zpos (digits2_pos p)); [exact Hhi|].
  apply Z.pow_le_mono_r; lia.
Qed.

Lemma digits2_above (p : positive) (d : Z) :
  d < Zpos (digits2_pos p) -> 2 ^ d <= Zpos p.
Proof.
  intros Hd. pose proof (digits2_bounds p) as [Hlo _].
  apply Z.le_trans with (2 ^ (Zpos (digits2_pos p) - 1)); [|exact Hlo].
  apply Z.pow_le_mono_r; lia.
Qed.

Lemma digits2_iter (p q : positive) :
  digits2_pos (Pos.iter xO p q) = (digits2_pos p + q)%positive.
Proof.
  induction q as [|q IH] using Pos.peano_ind.
  - cbn. lia.
  - rewrite Pos.iter_succ. cbn [digits2_pos]. rewrite IH. lia.
Qed.

Lemma iter_xO_value (p q : positive) : Zpos (Pos.iter xO p q) = Zpos p * 2 ^ Zpos q.
Proof.
  induction q as [|q IH] using Pos.peano_ind.
  - cbn. lia.
  - rewrite Pos.iter_succ, Pos2Z.inj_xO, IH, Pos2Z.inj_succ, Z.pow_succ_r by lia. lia.
Qed.

(** A mantissa of 53 digits with an exponent in range is not rounded. *)
Lemma round_exact (s : bool) (m : positive) (e : Z) :
  Zpos (digits2_pos m) = 53 -> -1074 <= e <= 971 ->
  binary_round_aux Binary64.prec Binary64.emax s (Zpos m) e loc_Exact = S754_finite s m e.
Proof.
  intros Hm He.
  unfold binary_round_aux, shr_fexp, fexp, emin, Binary64.prec, Binary64.emax.
  cbn [Zdigits2]. rewrite Hm.
  replace (Z.max (53 + e - 53) (3 - 1024 - 53) - e) with 0 by lia.
  cbn [shr shr_record_of_loc shr_m loc_of_shr_record round_nearest_even Zdigits2].
  rewrite Hm.
  replace (Z.max (53 + e - 53) (3 - 1024 - 53) - e) with 0 by lia.
  cbn [shr shr_record_of_loc shr_m].
  replace (e <=? 1024 - 53) with true by (symmetry; apply Z.leb_le; lia).
  reflexivity.
Qed.

(** The double [p * 2^-53]: the mantissa is [p] shifted to 53 digits. *)
Lemma random_normal_form (p : positive) :
  Zpos p < 2 ^ 53 ->
  exists m : positive,
    Binary64.Random.random (Zpos p) = S754_finite false m (Zpos (digits2_pos p) - 106)
    /\ Zpos m = Zpos p * 2 ^ (53 - Zpos (digits2_pos p)).
Proof.
  intros Hp. pose proof (digits2_bounds p) as [Hlo Hhi].
  assert (Hd : Zpos (digits2_pos p) <= 53).
  { destruct (Z_le_gt_dec (Zpos (digits2_pos p)) 53) as [|Hgt]; [assumption|].
    assert (2 ^ 53 <= 2 ^ (Zpos (digits2_pos p) - 1)) by (apply Z.pow_le_mono_r; lia).
    lia. }
  unfold Binary64.Random.random, binary_normalize, binary_round.
  unfold fexp, emin, Binary64.prec, Binary64.emax.
  replace (Z.max (Zpos (digits2_pos p) + -53 - 53) (3 - 1024 - 53))
    with (Zpos (digits2_pos p) - 106) by lia.
  unfold shl_align.
  destruct (Zpos (digits2_pos p) - 106 - -53) as [|q|q] eqn:Hq; [|exfalso; lia|].
  - exists p. replace (Zpos (digits2_pos p) - 106) with (-53) by lia.
    split; [apply round_exact; lia|].
    replace (53 - Zpos (digits2_pos p)) with 0 by lia. lia.
  - exists (Pos.iter xO p q).
    split; [apply round_exact; [rewrite digits2_iter|]; lia|].
    rewrite iter_xO_value. f_equal. f_equal. lia.
Qed.

Lemma tenth_value : Binary64.decimal 1 10 = S754_finite false 7205759403792794 (-56).
Proof. vm_compute. reflexivity. Qed.

(** Which values of [random.random()] are below the literal 0.1. *)
Lemma random_below_tenth (k : Z) :
  0 <= k < Binary64.Random.random_values ->
  Binary64.lt (Binary64.Random.random k) (Binary64.decimal 1 10)
  = (k <? Binary64.random_trade_values).
Proof.
  unfold Binary64.Random.random_values, Binary64.random_trade_values.
  intros [Hlo Hhi]. destruct k as [|p|p].
  - rewrite tenth_value. reflexivity.
  - destruct (random_normal_form p Hhi) as (m & -> & Hm).
    rewrite tenth_value. clear Hlo Hhi.
    unfold Binary64.lt, SFltb, SFcompare.
    destruct (Z.compare_spec (Zpos (digits2_pos p) - 106) (-56)) as [Heq|Hlt|Hgt].
    + assert (Hd : Zpos (digits2_pos p) = 50) by lia. rewrite Hd in Hm.
      rewrite Pos.compare_cont_spec. cbn [CompOpp Pos.switch_Eq].
      change (2 ^ (53 - 50)) with 8 in Hm. clear Heq Hd.
      rewrite Pos2Z.inj_compare.
      destruct (Z.compare_spec (Zpos m) 7205759403792794) as [Hc|Hc|Hc];
        symmetry; [apply Z.ltb_ge|apply Z.ltb_lt|apply Z.ltb_ge]; lia.
    + symmetry. apply Z.ltb_lt.
      pose proof (digits2_below p 49 ltac:(lia)) as Hp.
      change (2 ^ 49) with 562949953421312 in Hp. clear Hm Hlt. lia.
    + symmetry. apply Z.ltb_ge.
      pose proof (digits2_above p 50 ltac:(lia)) as Hp.
      change (2 ^ 50) with 1125899906842624 in Hp. clear Hm Hgt. lia.
  - exfalso. lia.
Qed.



End Doubles.

(** ** Trades *)

(** The trades of a day, as the deterministic trade followed by the random
    one. *)
Lemma simulate_trades_parts (random : Binary64.double) (choice_bool : bool)
    (bid ask : Binary64.double) (market : Binary64.Market.t) :
  Binary64.Game.simulate_trades random choice_bool bid ask market
  = (if Binary64.le (Binary64.price (Binary64.Market.state market))
          (Binary64.mul bid (Binary64.add (Binary64.of_int 1) (Binary64.decimal 1 1000)))
     then [Binary64.buy_at bid]
     else if Binary64.le
               (Binary64.mul ask (Binary64.sub (Binary64.of_int 1) (Binary64.decimal 1 1000)))
               (Binary64.price (Binary64.Market.state market))
          then [Binary64.sell_at ask] else [])
    ++ (if Binary64.lt random (Binary64.decimal 1 10)
        then [if choice_bool then Binary64.buy_at bid else Binary64.sell_at ask]
        else []).
Proof.
  unfold Binary64.Game.simulate_trades, Binary64.Market.get_state,
    Binary64.buy_at, Binary64.sell_at.
  destruct (Binary64.lt random _).
  - destruct choice_bool; reflexivity.
  - rewrite app_nil_r. reflexivity.
Qed.

(** C5. On doubles, with the guards rounded as the code rounds them. The
    trades of a day are the deterministic trade followed by the random
    one. The deterministic part is one buy of one unit at the bid exactly
    when [price <= bid * (1 + 0.001)]; failing that, one sell of one unit at
    the ask exactly when [price >= ask * (1 - 0.001)]; and nothing
    otherwise. The random part is one more unit trade exactly when the
    value of [random.random()] is below 0.1, a buy at the bid or a sell at
    the ask as the drawn direction says; so a day has at most two trades.
    The random part does not depend on the deterministic one: for given
    quotes and price the deterministic part is fixed, and of the [2^53]
    equally likely values [k * 2^-53] of [random.random()] exactly the
    first 900719925474100 add the trade, whatever the quotes, the price
    and the direction are; that share differs from one tenth by less than
    one value. With bid 99, ask 101 and price 99.05 the deterministic trade
    is a buy at 99; with bid 1000, ask 1002 and price 1001 it is a sell at
    1002, the product [1000 * (1 + 0.001)] being rounded below 1001. *)
Theorem simulate_trades_rule :
  (forall (random : Binary64.double) (choice_bool : bool) (bid ask : Binary64.double)
          (market : Binary64.Market.t),
      let market_price := Binary64.price (Binary64.Market.state market) in
      let buy_guard :=
        Binary64.le market_price
          (Binary64.mul bid (Binary64.add (Binary64.of_int 1) (Binary64.decimal 1 1000))) in
      let sell_guard :=
        Binary64.le
          (Binary64.mul ask (Binary64.sub (Binary64.of_int 1) (Binary64.decimal 1 1000)))
          market_price in
      let random_guard := Binary64.lt random (Binary64.decimal 1 10) in
      exists deterministic additional : list Binary64.TradeResult.t,
        Binary64.Game.simulate_trades random choice_bool bid ask market
        = deterministic ++ additional
        /\ (deterministic = [Binary64.buy_at bid] <-> buy_guard = true)
        /\ (deterministic = [Binary64.sell_at ask]
            <-> buy_guard = false /\ sell_guard = true)
        /\ (deterministic = [] <-> buy_guard = false /\ sell_guard = false)
        /\ (additional = [Binary64.buy_at bid]
            <-> random_guard = true /\ choice_bool = true)
        /\ (additional = [Binary64.sell_at ask]
            <-> random_guard = true /\ choice_bool = false)
        /\ (additional = [] <-> random_guard = false)
        /\ (length (Binary64.Game.simulate_trades random choice_bool bid ask market)
            <= 2)%nat)
  /\ (forall (bid ask : Binary64.double) (market : Binary64.Market.t),
         exists deterministic : list Binary64.TradeResult.t,
           (length deterministic <= 1)%nat
           /\ forall (k : Z) (choice_bool : bool),
                (0 <= k < Binary64.Random.random_values)%Z ->
                Binary64.Game.simulate_trades (Binary64.Random.random k) choice_bool
                  bid ask market
                = deterministic
                  ++ (if (k <? Binary64.random_trade_values)%Z
                      then [if choice_bool then Binary64.buy_at bid
                            else Binary64.sell_at ask]
                      else []))
  /\ (0 <= 10 * Binary64.random_trade_values - Binary64.Random.random_values < 10)%Z
  /\ (forall (random : Binary64.double) (choice_bool : bool),
         exists additional : list Binary64.TradeResult.t,
           Binary64.Game.simulate_trades random choice_bool
             (Binary64.of_int 99) (Binary64.of_int 101)
             (Binary64.market_at (Binary64.decimal 9905 100))
           = Binary64.buy_at (Binary64.of_int 99) :: additional)
  /\ (forall (random : Binary64.double) (choice_bool : bool),
         exists additional : list Binary64.TradeResult.t,
           Binary64.Game.simulate_trades random choice_bool
             (Binary64.of_int 1000) (Binary64.of_int 1002)
             (Binary64.market_at (Binary64.of_int 1001))
           = Binary64.sell_at (Binary64.of_int 1002) :: additional).
Proof.
  split; [|split; [|split; [|split]]].
  - intros random choice_bool bid ask market market_price buy_guard sell_guard random_guard.
    rewrite simulate_trades_parts.
    fold market_price. fold buy_guard. fold sell_guard. fold random_guard.
    eexists _, _. split; [reflexivity|].
    unfold Binary64.buy_at, Binary64.sell_at.
    destruct buy_guard, sell_guard, random_guard, choice_bool; cbn;
      repeat split; intros; try discriminate; try reflexivity; try lia;
      intuition (discriminate || congruence).
  - intros bid ask market. eexists. split; cycle 1.
    + intros k choice_bool Hk. rewrite simulate_trades_parts, (random_below_tenth k Hk).
      reflexivity.
    + destruct (Binary64.le _ _); [|destruct (Binary64.le _ _)]; cbn; lia.
  - split; vm_compute; [discriminate | reflexivity].
  - intros random choice_bool. rewrite simulate_trades_parts.
    eexists. reflexivity.
  - intros random choice_bool. rewrite simulate_trades_parts.
    eexists. reflexivity.
Qed.

(** ** The longest streak of positive days *)

Lemma streak_step_positive (st : Z * Z) (r : DayRecord) :
  0 < record_pnl r ->
  Game.streak_step st r = (Z.max (fst st) (snd st + 1), (snd st + 1)%Z).
Proof.
  intros Hpos. destruct st as [mx cur]. unfold Game.streak_step.
  rewrite bool_decide_eq_true_2 by exact Hpos. reflexivity.
Qed.

Lemma streak_step_reset (st : Z * Z) (r : DayRecord) :
  record_pnl r <= 0 -> Game.streak_step st r = (fst st, 0%Z).
Proof.
  intros Hle. destruct st as [mx cur]. unfold Game.streak_step.
  rewrite bool_decide_eq_false_2; [reflexivity|].
  intros Hpos. exact (Qclt_not_le _ _ Hpos Hle).
Qed.

Lemma positive_tail_snoc_inv (l seg : list DayRecord) (r : DayRecord) :
  positive_tail (l ++ [r]) seg ->
  seg = [] \/ exists seg', seg = seg' ++ [r] /\ positive_tail l seg' /\ positive_day r.
Proof.
  intros [[before Heq] Hall].
  destruct seg as [|x seg _] using rev_ind; [left; reflexivity|right].
  rewrite app_assoc in Heq. apply app_inj_tail in Heq as [Hl ->].
  apply Forall_app in Hall as [Hseg Hr].
  exists seg. split; [reflexivity|]. split.
  - split; [exists before; exact Hl | exact Hseg].
  - inversion Hr; assumption.
Qed.

Lemma positive_run_snoc_inv (l seg : list DayRecord) (r : DayRecord) :
  positive_run (l ++ [r]) seg -> positive_run l seg \/ positive_tail (l ++ [r]) seg.
Proof.
  intros [(before & after & Heq) Hall].
  destruct after as [|x after _] using rev_ind.
  - right. split; [|exact Hall]. exists before. rewrite Heq, app_nil_r. reflexivity.
  - left. split; [|exact Hall].
    rewrite !app_assoc in Heq. apply app_inj_tail in Heq as [Hl _].
    exists before, after. rewrite Hl, app_assoc. reflexivity.
Qed.

Lemma positive_run_snoc (l seg : list DayRecord) (r : DayRecord) :
  positive_run l seg -> positive_run (l ++ [r]) seg.
Proof.
  intros [(before & after & ->) Hall]. split; [|exact Hall].
  exists before, (after ++ [r]). rewrite <- !app_assoc. reflexivity.
Qed.

Lemma positive_tail_run (l seg : list DayRecord) :
  positive_tail l seg -> positive_run l seg.
Proof.
  intros [[before ->] Hall]. split; [|exact Hall].
  exists before, []. rewrite app_nil_r. reflexivity.
Qed.

Lemma streak_loop_snoc (l : list DayRecord) (r : DayRecord) :
  Game.streak_loop (l ++ [r]) = Game.streak_step (Game.streak_loop l) r.
Proof. unfold Game.streak_loop. rewrite fold_left_app. reflexivity. Qed.

(** The loop invariant of [get_max_consecutive_positive_days]. *)
Lemma streak_loop_invariant (l : list DayRecord) :
  longest_positive_run l (fst (Game.streak_loop l))
  /\ longest_positive_tail l (snd (Game.streak_loop l)).
Proof.
  induction l as [|r l [[[run [Hrun Hrunlen]] Hrunmax] [[tl [Htl Htllen]] Htlmax]]]
    using rev_ind.
  - cbn. split; (split; [exists []; split; [split; [|constructor]|reflexivity]|]).
    + exists [], []. reflexivity.
    + intros seg [(before & after & Heq) _]. symmetry in Heq.
      apply app_eq_nil in Heq as [_ Heq]. apply app_eq_nil in Heq as [-> _].
      reflexivity.
    + exists []. reflexivity.
    + intros seg [[before Heq] _]. symmetry in Heq.
      apply app_eq_nil in Heq as [_ ->]. reflexivity.
  - rewrite streak_loop_snoc.
    destruct (Game.streak_loop l) as [mx cur]. cbn [fst snd] in *.
    destruct (Qclt_le_dec 0 (record_pnl r)) as [Hpos|Hneg].
    + rewrite streak_step_positive by exact Hpos. cbn [fst snd].
      assert (Htail : longest_positive_tail (l ++ [r]) (cur + 1)).
      { split.
        - exists (tl ++ [r]). split.
          + destruct Htl as [[before ->] Hall]. split.
            * exists before. rewrite app_assoc. reflexivity.
            * apply Forall_app. split; [exact Hall|]. constructor; [exact Hpos|constructor].
          + rewrite length_app. cbn. lia.
        - intros seg Hseg. apply positive_tail_snoc_inv in Hseg as [->|(seg' & -> & Hseg' & _)].
          + cbn. lia.
          + apply Htlmax in Hseg'. rewrite length_app. cbn. lia. }
      split; [|exact Htail]. split.
      * destruct (Z.max_spec mx (cur + 1)) as [[_ ->]|[_ ->]].
        -- destruct Htail as [[seg [Hseg Hlen]] _]. exists seg.
           split; [apply positive_tail_run, Hseg | exact Hlen].
        -- exists run. split; [apply positive_run_snoc, Hrun | exact Hrunlen].
      * intros seg Hseg. apply positive_run_snoc_inv in Hseg as [Hseg|Hseg].
        -- apply Hrunmax in Hseg. lia.
        -- apply Htail in Hseg. lia.
    + rewrite streak_step_reset by exact Hneg. cbn [fst snd].
      assert (Htail : forall seg, positive_tail (l ++ [r]) seg -> seg = []).
      { intros seg Hseg. apply positive_tail_snoc_inv in Hseg as [->|(seg' & _ & _ & Hr)].
        - reflexivity.
        - exfalso. exact (Qclt_not_le _ _ Hr Hneg). }
      split; split.
      * exists run. split; [apply positive_run_snoc, Hrun | exact Hrunlen].
      * intros seg Hseg. apply positive_run_snoc_inv in Hseg as [Hseg|Hseg].
        -- apply Hrunmax, Hseg.
        -- apply Htail in Hseg as ->. cbn. lia.
      * exists []. split; [|reflexivity]. split; [|constructor].
        exists (l ++ [r]). rewrite app_nil_r. reflexivity.
      * intros seg Hseg. apply Htail in Hseg as ->. reflexivity.
Qed.

Lemma get_max_is_longest_run {M : Type} (g : Game.t M) :
  longest_positive_run (Game.daily_results g) (Game.get_max_consecutive_positive_days g).
Proof. apply streak_loop_invariant. Qed.

(** C6. [get_max_consecutive_positive_days] returns the length of a longest
    stretch of consecutive recorded days with [pnl > 0]. In its loop a day
    with [pnl > 0] extends the current streak by one, and a day with
    [pnl <= 0], a day with [pnl == 0] included, sets the current streak back
    to zero and leaves the maximum as it was. The sequence
    1, 2, -1, 3, 4, 5, -1 gives 3, and 1, 0, 1 gives 1. *)
Theorem longest_streak (M : Type) :
  (forall g : Game.t M,
      longest_positive_run (Game.daily_results g)
        (Game.get_max_consecutive_positive_days g))
  /\ (forall (max_streak current_streak : Z) (r : DayRecord),
         0 < record_pnl r ->
         Game.streak_step (max_streak, current_streak) r
         = (Z.max max_streak (current_streak + 1), (current_streak + 1)%Z))
  /\ (forall (max_streak current_streak : Z) (r : DayRecord),
         record_pnl r <= 0 ->
         Game.streak_step (max_streak, current_streak) r = (max_streak, 0%Z))
  /\ (forall g : Game.t M,
         Game.get_max_consecutive_positive_days (Game.set_daily_results example_log g) = 3%Z)
  /\ (forall g : Game.t M,
         Game.get_max_consecutive_positive_days (Game.set_daily_results flat_day_log g) = 1%Z).
Proof.
  split; [apply get_max_is_longest_run|].
  split; [intros mx cur r Hpos; apply (streak_step_positive (mx, cur)), Hpos|].
  split; [intros mx cur r Hle; apply (streak_step_reset (mx, cur)), Hle|].
  split; intros g; reflexivity.
Qed.

(** ** One simulated day *)

Lemma floor_nonzero (c x : float) : 0 < c -> c <= x -> x <> 0.
Proof.
  intros Hc Hx ->. exact (Qclt_not_le _ _ Hc Hx).
Qed.

Lemma positive_nonzero (x : float) : 0 < x -> x <> 0.
Proof. intros Hx ->. discriminate Hx. Qed.

Lemma div_nonzero (x y : float) : y <> 0 -> Py.div x y = Ok (x / y).
Proof. intros Hy. unfold Py.div. rewrite bool_decide_eq_false_2 by exact Hy. reflexivity. Qed.

Lemma div_zero (x : float) : Py.div x 0 = Raise ZeroDivisionError.
Proof. reflexivity. Qed.

Lemma choice_nonempty {A : Type} (k : nat) (seq : list A) :
  seq <> [] -> exists a, Random.choice k seq = Ok a /\ In a seq.
Proof.
  intros Hne. unfold Random.choice.
  destruct (nth_error seq (k mod length seq)) as [a|] eqn:Hnth.
  - exists a. split; [reflexivity|]. eapply nth_error_In, Hnth.
  - exfalso. apply nth_error_None in Hnth.
    assert (length seq <> 0)%nat by (destruct seq; [congruence | cbn; lia]).
    pose proof (Nat.mod_upper_bound k (length seq)). lia.
Qed.

Lemma choice_empty {A : Type} (k : nat) : Random.choice k (@nil A) = Raise IndexError.
Proof. unfold Random.choice. destruct (k mod length (@nil A))%nat; reflexivity. Qed.

Lemma apply_relative_nonzero (new_price new_volatility : float) (m : Market.t) :
  price (Market.state m) <> 0 -> volatility (Market.state m) <> 0 ->
  Game.apply_relative new_price new_volatility m
  = Ok (set_targets new_price new_volatility m).
Proof.
  intros Hp Hv. unfold Game.apply_relative, Market.get_state.
  rewrite (div_nonzero _ _ Hp), (div_nonzero _ _ Hv). cbn [mbind result_bind].
  unfold Market.apply_challenge, set_targets.
  replace (price (Market.state m) * (new_price / price (Market.state m)))
    with new_price by (field; exact Hp).
  replace (volatility (Market.state m) * (new_volatility / volatility (Market.state m)))
    with new_volatility by (field; exact Hv).
  reflexivity.
Qed.

Lemma simulate_day_outcome {M : Type} `{MarketMaker M} `{Libm}
    (day : Z) (d : Random.Draws) (g : Game.t M) :
  ChallengeManager.challenges (Game.challenge_manager g) <> [] ->
  volatility (Market.state (Game.market g)) <> 0 ->
  exists challenge,
    Random.choice (Random.choice_index d)
      (ChallengeManager.challenges (Game.challenge_manager g)) = Ok challenge
    /\ Game.simulate_day day d g = Ok (day_outcome day d challenge g).
Proof.
  intros Hcm Hv.
  destruct (choice_nonempty (Random.choice_index d) _ Hcm) as (challenge & Hch & _).
  exists challenge. split; [exact Hch|].
  unfold Game.simulate_day, ChallengeManager.apply_challenge,
    ChallengeManager.get_random_challenge.
  cbn [Game.set_market Game.market Game.challenge_manager Market.get_state].
  rewrite Hch. cbn [mbind result_bind].
  unfold day_outcome.
  destruct (Challenge.effect challenge d _ _) as [new_price new_volatility] eqn:Heff.
  cbn [mbind result_bind fst snd].
  rewrite apply_relative_nonzero.
  - cbn [mbind result_bind Game.set_market Game.market Game.market_maker].
    destruct (make_market _ _ _) as [bid ask]. reflexivity.
  - apply (floor_nonzero (Q2Qc 0.01)); [reflexivity | apply update_price_floor].
  - rewrite update_volatility. exact Hv.
Qed.

Lemma apply_relative_inv (new_price new_volatility : float) (m m' : Market.t) :
  Game.apply_relative new_price new_volatility m = Ok m' ->
  price (Market.state m) <> 0 /\ volatility (Market.state m) <> 0
  /\ m' = Market.apply_challenge (new_price / price (Market.state m))
            (new_volatility / volatility (Market.state m)) m.
Proof.
  unfold Game.apply_relative, Py.div, Market.get_state.
  repeat case_bool_decide; cbn; try discriminate.
  intros [= <-]. auto.
Qed.

(** A day that returns leaves the floors in place and has appended exactly
    one record, for that day and with the P&L it returns. *)
Lemma simulate_day_inv {M : Type} `{MarketMaker M} `{Libm}
    (day : Z) (d : Random.Draws) (g g' : Game.t M) (daily_pnl : float) :
  Game.simulate_day day d g = Ok (daily_pnl, g') ->
  market_invariant (Market.state (Game.market g'))
  /\ (exists bid ask challenge,
         Game.daily_results g' = Game.daily_results g ++ [(day, bid, ask, daily_pnl, challenge)])
  /\ Game.total_pnl g' = Game.total_pnl g
  /\ Game.challenge_manager g' = Game.challenge_manager g
  /\ Game.market_maker g' = Game.market_maker g
  /\ Game.days g' = Game.days g.
Proof.
  unfold Game.simulate_day.
  destruct (ChallengeManager.apply_challenge _ _ _ _) as [[[new_price new_volatility] challenge]|e];
    [|discriminate].
  cbn [mbind result_bind].
  destruct (Game.apply_relative _ _ _) as [m|e] eqn:Hrel; [|discriminate].
  cbn [mbind result_bind].
  destruct (make_market _ _ _) as [bid ask].
  intros [= <- <-]. cbn.
  apply apply_relative_inv in Hrel as (_ & _ & ->).
  split; [apply apply_challenge_floors|].
  split; [exists bid, ask, (Challenge.name challenge); reflexivity|].
  auto.
Qed.

(** ** The loop over the days *)

Section Run.

Context {M : Type} `{MarketMaker M} `{Libm}.
Variable oracle : Z -> Random.Draws.

(** What the loop leaves behind when it gets through the days [l]. *)
Lemma run_loop_inv (l : list Z) (g g' : Game.t M) :
  Game.run_loop oracle l g = Ok g' ->
  (exists recs,
      Game.daily_results g' = Game.daily_results g ++ recs
      /\ map record_day recs = l
      /\ Game.total_pnl g' = fold_left Qcplus (map record_pnl recs) (Game.total_pnl g))
  /\ Game.challenge_manager g' = Game.challenge_manager g
  /\ Game.market_maker g' = Game.market_maker g
  /\ Game.days g' = Game.days g
  /\ (0 < volatility (Market.state (Game.market g)) ->
      0 < volatility (Market.state (Game.market g'))).
Proof.
  revert g. induction l as [|day l IH]; intros g.
  - intros [= <-]. split; [|auto].
    exists []. rewrite app_nil_r. auto.
  - cbn [Game.run_loop].
    destruct (Game.simulate_day day (oracle day) g) as [[daily_pnl g1]|e] eqn:Hday;
      [|discriminate].
    cbn [mbind result_bind]. intros Hloop.
    apply simulate_day_inv in Hday
      as ([_ Hvol] & (bid & ask & challenge & Hlog) & Htotal & Hcm & Hmm & Hdays).
    apply IH in Hloop as ((recs & Hrecs & Hdaysof & Hsum) & Hcm' & Hmm' & Hdays' & Hpos).
    cbn in Hrecs, Hsum, Hcm', Hmm', Hdays', Hpos.
    split; [|split; [congruence|split; [congruence|split; [congruence|]]]].
    + exists ((day, bid, ask, daily_pnl, challenge) :: recs).
      split; [rewrite Hrecs, Hlog, <- app_assoc; reflexivity|].
      split; [cbn; congruence|].
      cbn. rewrite Hsum, Htotal. reflexivity.
    + intros _. apply Hpos.
      apply Qclt_le_trans with (Q2Qc 0.001); [reflexivity | exact Hvol].
Qed.

(** With a catalogue to draw from and a volatility other than zero, the
    loop gets through any list of days. *)
Lemma run_loop_succeeds (l : list Z) (g : Game.t M) :
  ChallengeManager.challenges (Game.challenge_manager g) <> [] ->
  volatility (Market.state (Game.market g)) <> 0 ->
  exists g', Game.run_loop oracle l g = Ok g'.
Proof.
  revert g. induction l as [|day l IH]; intros g Hcm Hvol.
  - exists g. reflexivity.
  - cbn [Game.run_loop].
    destruct (simulate_day_outcome day (oracle day) g Hcm Hvol) as (challenge & _ & Hday).
    rewrite Hday. destruct (day_outcome day (oracle day) challenge g) as [daily_pnl g1] eqn:Hout.
    cbn [mbind result_bind].
    apply simulate_day_inv in Hday as ([_ Hfloor] & _ & _ & Hcm1 & _).
    apply IH.
    + cbn. rewrite Hcm1. exact Hcm.
    + cbn. apply (floor_nonzero (Q2Qc 0.001)); [reflexivity | exact Hfloor].
Qed.

(** The loop never stops on a division by zero. *)
Lemma run_loop_no_zero_division (l : list Z) (g : Game.t M) :
  volatility (Market.state (Game.market g)) <> 0 ->
  Game.run_loop oracle l g <> Raise ZeroDivisionError.
Proof.
  intros Hvol.
  destruct (ChallengeManager.challenges (Game.challenge_manager g)) as [|c cs] eqn:Hcm.
  - destruct l as [|day l]; [discriminate|].
    cbn [Game.run_loop]. unfold Game.simulate_day, ChallengeManager.apply_challenge,
      ChallengeManager.get_random_challenge.
    cbn [Game.set_market Game.challenge_manager]. rewrite Hcm, choice_empty.
    discriminate.
  - destruct (run_loop_succeeds l g) as [g' ->]; [congruence | exact Hvol | discriminate].
Qed.

End Run.

(** ** Facts on [range], [sum] and [int] operands *)

Lemma range_length (lo hi : Z) : length (Py.range lo hi) = Z.to_nat (hi - lo).
Proof. unfold Py.range. rewrite length_map, length_seq. reflexivity. Qed.

Lemma range_lookup (lo hi : Z) (k : nat) (x : Z) :
  Py.range lo hi !! k = Some x -> x = (lo + Z.of_nat k)%Z.
Proof.
  unfold Py.range. rewrite list_lookup_fmap.
  destruct (seq 0 (Z.to_nat (hi - lo)) !! k) as [i|] eqn:Hi; [|discriminate].
  apply lookup_seq in Hi as [-> _]. cbn. congruence.
Qed.

Lemma sum_ones {A : Type} (l : list A) :
  Py.sum (map (fun _ => 1%Z) l) = Z.of_nat (length l).
Proof.
  unfold Py.sum.
  cut (forall a, fold_left Z.add (map (fun _ : A => 1%Z) l) a = (a + Z.of_nat (length l))%Z).
  { intros Hgen. rewrite Hgen. reflexivity. }
  induction l as [|x l IH]; intros a; cbn [map fold_left length].
  - lia.
  - rewrite IH. lia.
Qed.

Lemma of_int_mul (a b : Z) : of_int (a * b) = of_int a * of_int b.
Proof.
  unfold of_int. apply Qc_is_canon. cbn [this Q2Qc Qcmult].
  rewrite !Qred_correct, inject_Z_mult. reflexivity.
Qed.

(** ** The score *)

Lemma calculate_score_formula {M : Type} (g : Game.t M) :
  Game.calculate_score g
  = score_formula (Game.total_pnl g) (negative_days (Game.daily_results g))
      (Game.get_max_consecutive_positive_days g).
Proof.
  unfold Game.calculate_score, score_formula, negative_days.
  rewrite sum_ones, !of_int_mul. change (of_int 0) with (Q2Qc 0). f_equal.
  generalize (of_int 10), (of_int 5). intros ten five. ring.
Qed.

Lemma calculate_score_nonneg {M : Type} (g : Game.t M) : 0 <= Game.calculate_score g.
Proof. apply max_ge_left. Qed.

(** C1. When [run] returns, it has simulated the days 1, 2, ..., [days] in
    this order, one record each, and the score is [T - 10 * N + 5 * S]
    floored at 0, for [T] the total P&L (the total the game started with
    plus the P&L of each of these days, added in day order), [N] the number
    of recorded days with [pnl < 0] and [S] the length of a longest stretch
    of consecutive recorded days with [pnl > 0]. The P&L a record carries
    is the P&L [simulate_day] returned for its day, and [simulate_day]
    leaves the total to [run]. [run] does return a score when there is a
    catalogue to draw from and the volatility is above zero. The score of
    any game object, whatever its log, is not negative; with [T = 100],
    [N = 3] and [S = 4] it is 90. *)
Theorem run_score {M : Type} `{MarketMaker M} `{Libm}
    (oracle : Z -> Random.Draws) (g : Game.t M) :
  (forall (score : float) (g' : Game.t M),
      Game.run oracle g = Ok (score, g') ->
      exists recs : list DayRecord,
        Game.daily_results g' = Game.daily_results g ++ recs
        /\ map record_day recs = Py.range 1 (Game.days g + 1)
        /\ length recs = Z.to_nat (Game.days g)
        /\ Game.total_pnl g'
           = fold_left Qcplus (map record_pnl recs) (Game.total_pnl g)
        /\ longest_positive_run (Game.daily_results g ++ recs)
             (Game.get_max_consecutive_positive_days g')
        /\ score
           = score_formula
               (fold_left Qcplus (map record_pnl recs) (Game.total_pnl g))
               (negative_days (Game.daily_results g ++ recs))
               (Game.get_max_consecutive_positive_days g')
        /\ 0 <= score)
  /\ (forall (day : Z) (d : Random.Draws) (g1 g2 : Game.t M) (daily_pnl : float),
         Game.simulate_day day d g1 = Ok (daily_pnl, g2) ->
         Game.total_pnl g2 = Game.total_pnl g1
         /\ exists r : DayRecord,
              Game.daily_results g2 = Game.daily_results g1 ++ [r]
              /\ record_day r = day /\ record_pnl r = daily_pnl)
  /\ (ChallengeManager.challenges (Game.challenge_manager g) <> [] ->
      0 < volatility (Market.state (Game.market g)) ->
      exists (score : float) (g' : Game.t M), Game.run oracle g = Ok (score, g'))
  /\ (forall g0 : Game.t M,
         Game.calculate_score g0
         = score_formula (Game.total_pnl g0) (negative_days (Game.daily_results g0))
             (Game.get_max_consecutive_positive_days g0)
         /\ 0 <= Game.calculate_score g0)
  /\ score_formula (Q2Qc 100) 3 4 = Q2Qc 90
  /\ Game.calculate_score scored_game = Q2Qc 90.
Proof.
  split; [|split; [|split; [|split; [|split]]]].
  - intros score g' Hrun. unfold Game.run in Hrun.
    destruct (Game.run_loop oracle _ g) as [g1|e] eqn:Hloop; [|discriminate].
    cbn in Hrun. injection Hrun as <- <-.
    pose proof (run_loop_inv oracle _ _ _ Hloop) as ((recs & Hrecs & Hdays & Hsum) & _).
    exists recs. split; [exact Hrecs|]. split; [exact Hdays|].
    split; [rewrite <- (length_map record_day), Hdays, range_length; f_equal; lia|].
    split; [exact Hsum|]. rewrite <- Hrecs, <- Hsum.
    split; [apply get_max_is_longest_run|].
    split; [apply calculate_score_formula | apply calculate_score_nonneg].
  - intros day d g1 g2 daily_pnl Hday.
    apply simulate_day_inv in Hday as (_ & (bid & ask & challenge & Hlog) & Htotal & _).
    split; [exact Htotal|].
    exists (day, bid, ask, daily_pnl, challenge). auto.
  - intros Hcm Hvol.
    destruct (run_loop_succeeds oracle (Py.range 1 (Game.days g + 1)) g Hcm
                (positive_nonzero _ Hvol)) as [g' Hloop].
    exists (Game.calculate_score g'), g'. unfold Game.run. rewrite Hloop. reflexivity.
  - intros g0. split; [apply calculate_score_formula | apply calculate_score_nonneg].
  - apply Qc_is_canon. reflexivity.
  - apply Qc_is_canon. reflexivity.
Qed.

Lemma run_score_witness :
  ChallengeManager.challenges (Game.challenge_manager sample_game) <> []
  /\ 0 < volatility (Market.state (Game.market sample_game))
  /\ exists (score : float) (g' : Game.t SimpleMarketMaker.t) (recs : list DayRecord),
       @Game.run _ _ sample_exp sample_oracle sample_game = Ok (score, g')
       /\ Game.daily_results g' = recs
       /\ map record_day recs = [1; 2; 3]%Z
       /\ Game.total_pnl g' = fold_left Qcplus (map record_pnl recs) (Q2Qc 0.0)
       /\ 0 <= score.
Proof.
  split; [discriminate|]. split; [reflexivity|].
  destruct (@run_score _ _ sample_exp sample_oracle sample_game)
    as (Hscore & _ & Hreturns & _).
  destruct Hreturns as (score & g' & Hrun); [discriminate | reflexivity |].
  destruct (Hscore score g' Hrun) as (recs & Hrecs & Hdays & _ & Hsum & _ & _ & Hnonneg).
  exists score, g', recs. split; [exact Hrun|].
  split; [exact Hrecs|]. split; [exact Hdays|]. split; [exact Hsum | exact Hnonneg].
Defined.

(** C8. A run gets through all its days: with a catalogue to draw from and
    a volatility above zero it returns, and the log it leaves is the log it
    started with followed by one record per day, in day order, with the day
    fields 1, 2, ..., [days]. Every day that returns has added exactly one
    record, for that day, behind the records that were there. *)
Theorem run_appends_one_record_per_day {M : Type} `{MarketMaker M} `{Libm}
    (oracle : Z -> Random.Draws) (g : Game.t M) :
  (ChallengeManager.challenges (Game.challenge_manager g) <> [] ->
   0 < volatility (Market.state (Game.market g)) ->
   exists (score : float) (g' : Game.t M), Game.run oracle g = Ok (score, g'))
  /\ (forall (score : float) (g' : Game.t M),
         Game.run oracle g = Ok (score, g') ->
         exists recs : list DayRecord,
           Game.daily_results g' = Game.daily_results g ++ recs
           /\ map record_day recs = Py.range 1 (Game.days g + 1)
           /\ (forall (k : nat) (r : DayRecord),
                  recs !! k = Some r -> record_day r = (Z.of_nat k + 1)%Z)
           /\ length recs = Z.to_nat (Game.days g)
           /\ ((0 <= Game.days g)%Z -> Z.of_nat (length recs) = Game.days g))
  /\ (forall (day : Z) (d : Random.Draws) (g1 g2 : Game.t M) (daily_pnl : float),
         Game.simulate_day day d g1 = Ok (daily_pnl, g2) ->
         exists r : DayRecord,
           Game.daily_results g2 = Game.daily_results g1 ++ [r]
           /\ record_day r = day /\ record_pnl r = daily_pnl).
Proof.
  split; [|split].
  - intros Hcm Hvol.
    destruct (run_loop_succeeds oracle (Py.range 1 (Game.days g + 1)) g Hcm
                (positive_nonzero _ Hvol)) as [g' Hloop].
    exists (Game.calculate_score g'), g'. unfold Game.run. rewrite Hloop. reflexivity.
  - intros score g' Hrun. unfold Game.run in Hrun.
    destruct (Game.run_loop oracle _ g) as [g1|e] eqn:Hloop; [|discriminate].
    cbn in Hrun. injection Hrun as _ <-.
    pose proof (run_loop_inv oracle _ _ _ Hloop) as ((recs & Hrecs & Hdays & _) & _).
    exists recs.
    assert (Hlen : length recs = Z.to_nat (Game.days g)).
    { rewrite <- (length_map record_day), Hdays, range_length. f_equal. lia. }
    split; [exact Hrecs|]. split; [exact Hdays|].
    split; [|split; [exact Hlen | lia]].
    intros k r Hk.
    assert (Hday : map record_day recs !! k = Some (record_day r))
      by (rewrite list_lookup_fmap, Hk; reflexivity).
    rewrite Hdays in Hday. apply range_lookup in Hday. lia.
  - intros day d g1 g2 daily_pnl Hday.
    apply simulate_day_inv in Hday as (_ & (bid & ask & challenge & Hlog) & _).
    exists (day, bid, ask, daily_pnl, challenge). auto.
Qed.

Lemma run_appends_one_record_per_day_witness :
  ChallengeManager.challenges (Game.challenge_manager sample_game) <> []
  /\ 0 < volatility (Market.state (Game.market sample_game))
  /\ exists (score : float) (g' : Game.t SimpleMarketMaker.t),
       @Game.run _ _ sample_exp sample_oracle sample_game = Ok (score, g')
       /\ map record_day (Game.daily_results g') = [1; 2; 3]%Z.
Proof.
  split; [discriminate|]. split; [reflexivity|].
  destruct (@run_appends_one_record_per_day _ _ sample_exp sample_oracle sample_game)
    as (Hreturns & Hlog & _).
  destruct Hreturns as (score & g' & Hrun); [discriminate | reflexivity |].
  exists score, g'. split; [exact Hrun|].
  destruct (Hlog score g' Hrun) as (recs & Hrecs & Hdays & _).
  rewrite Hrecs. exact Hdays.
Defined.

(** ** The challenge as relative factors *)



(** ** No division by zero *)

Lemma run_no_zero_division {M : Type} `{MarketMaker M} `{Libm}
    (oracle : Z -> Random.Draws) (g : Game.t M) :
  volatility (Market.state (Game.market g)) <> 0 ->
  Game.run oracle g <> Raise ZeroDivisionError.
Proof.
  intros Hvol. unfold Game.run.
  pose proof (run_loop_no_zero_division oracle (Py.range 1 (Game.days g + 1)) g Hvol) as Hloop.
  destruct (Game.run_loop oracle _ g) as [g'|e]; [discriminate|].
  cbn. congruence.
Qed.

(** C10. For a market created with a price and a volatility above zero, no
    day of a run divides by zero. Whatever days the loop has got through, at
    the point of the two divisions of the next day the price is at least
    0.01 and the volatility is above zero, so both quotients are computed;
    neither the loop nor [run] ends in [ZeroDivisionError]. *)
Theorem no_division_by_zero {M : Type} `{MarketMaker M} `{Libm}
    (oracle : Z -> Random.Draws) (market_maker : M) (challenge_manager : ChallengeManager.t)
    (days : Z) (initial_price initial_volatility : float) :
  0 < initial_price -> 0 < initial_volatility ->
  let g := Game.init (Market.init initial_price initial_volatility)
             challenge_manager market_maker days in
  (forall (done : list Z) (g_n : Game.t M) (d : Random.Draws),
      Game.run_loop oracle done g = Ok g_n ->
      let m := Market.update d (Game.market g_n) in
      Q2Qc 0.01 <= price (Market.state m)
      /\ 0 < volatility (Market.state m)
      /\ forall new_price new_volatility : float,
           Py.div new_price (price (Market.state m))
           = Ok (new_price / price (Market.state m))
           /\ Py.div new_volatility (volatility (Market.state m))
              = Ok (new_volatility / volatility (Market.state m)))
  /\ (forall done : list Z, Game.run_loop oracle done g <> Raise ZeroDivisionError)
  /\ Game.run oracle g <> Raise ZeroDivisionError.
Proof.
  intros _ Hvol g.
  assert (Hvol0 : volatility (Market.state (Game.market g)) <> 0)
    by (apply positive_nonzero, Hvol).
  split; [|split].
  - intros done g_n d Hloop m.
    apply run_loop_inv in Hloop as (_ & _ & _ & _ & Hpos).
    specialize (Hpos Hvol).
    assert (Hp : Q2Qc 0.01 <= price (Market.state m)) by apply update_price_floor.
    assert (Hv : 0 < volatility (Market.state m))
      by (unfold m; rewrite update_volatility; exact Hpos).
    split; [exact Hp|]. split; [exact Hv|].
    intros new_price new_volatility. split; apply div_nonzero.
    + apply (floor_nonzero (Q2Qc 0.01)); [reflexivity | exact Hp].
    + apply positive_nonzero, Hv.
  - intros done. apply run_loop_no_zero_division, Hvol0.
  - apply run_no_zero_division, Hvol0.
Qed.

(** ** Resolving the strategy by name *)

Lemma get_market_maker_class_unbound (globals : gmap string PyObject) (class_name : string) :
  globals !! class_name = None ->
  get_market_maker_class globals class_name
  = (Class_SimpleMarketMaker,
     [("Error: MarketMaker class '" ++ class_name ++ "' not found.")%string;
      "Using SimpleMarketMaker as fallback."]).
Proof. intros Hnone. unfold get_market_maker_class. rewrite Hnone. reflexivity. Qed.

Lemma get_market_maker_class_bound (globals : gmap string PyObject) (class_name : string)
    (obj : PyObject) :
  globals !! class_name = Some obj ->
  get_market_maker_class globals class_name = (obj, []).
Proof. intros Hsome. unfold get_market_maker_class. rewrite Hsome. reflexivity. Qed.

(** C9, on the code. The name of the concrete strategy resolves to it, and a
    name bound to nothing in the module falls back to [SimpleMarketMaker]
    with the two printed lines. But a name the module binds to something
    that is no strategy is returned as it is, with nothing printed: ["ABC"]
    yields the imported class [ABC], from which [main] creates an object
    with no [make_market], and ["MarketMaker"] yields the abstract base
    class, on which [MarketMakerClass()] raises [TypeError]. *)
Theorem get_market_maker_class_returns_any_global :
  get_market_maker_class market_maker_globals "SimpleMarketMaker"
  = (Class_SimpleMarketMaker, [])
  /\ get_market_maker_class market_maker_globals "NoSuchMaker"
     = (Class_SimpleMarketMaker,
        ["Error: MarketMaker class 'NoSuchMaker' not found.";
         "Using SimpleMarketMaker as fallback."])
  /\ get_market_maker_class market_maker_globals "ABC" = (Class_ABC, [])
  /\ resolve_market_maker market_maker_globals "ABC" = (Ok Instance_ABC, [])
  /\ get_market_maker_class market_maker_globals "MarketMaker" = (Class_MarketMaker, [])
  /\ resolve_market_maker market_maker_globals "MarketMaker" = (Raise TypeError, []).
Proof. repeat split; vm_compute; reflexivity. Qed.

(** ** The properties at sample inputs *)

Lemma market_invariant_preserved_witness :
  market_invariant (Market.state (Market.init (Q2Qc 100.0) (Q2Qc 0.02)))
  /\ market_invariant
       (Market.state
          (@Market.update sample_exp sample_draws (Market.init (Q2Qc 100.0) (Q2Qc 0.02)))).
Proof.
  assert (Hinit : market_invariant (Market.state (Market.init (Q2Qc 100.0) (Q2Qc 0.02))))
    by (split; discriminate).
  split; [exact Hinit|].
  exact (proj2 (@market_invariant_preserved sample_exp) sample_draws _ Hinit).
Defined.

Lemma update_clamps_factor_witness :
  @math_exp sample_exp (Random.gauss overflow_draws) = None
  /\ @Market.applied_factor sample_exp overflow_draws = Q2Qc 2.0.
Proof.
  assert (Hoverflow : @math_exp sample_exp (Random.gauss overflow_draws) = None)
    by reflexivity.
  split; [exact Hoverflow|].
  destruct (@update_clamps_factor sample_exp overflow_draws
              (Market.init (Q2Qc 100.0) (Q2Qc 0.02))) as (_ & _ & _ & _ & Hfactor).
  rewrite (Hfactor Hoverflow). reflexivity.
Defined.

Lemma longest_streak_witness :
  record_pnl (2%Z, 0, 0, Q2Qc 0, "Calm Markets") <= 0
  /\ Game.streak_step (1%Z, 1%Z) (2%Z, 0, 0, Q2Qc 0, "Calm Markets") = (1%Z, 0%Z).
Proof.
  assert (Hflat : record_pnl (2%Z, 0, 0, Q2Qc 0, "Calm Markets") <= 0) by discriminate.
  split; [exact Hflat|].
  destruct (longest_streak SimpleMarketMaker.t) as (_ & _ & Hreset & _).
  exact (Hreset 1%Z 1%Z _ Hflat).
Defined.


Lemma no_division_by_zero_witness :
  0 < Q2Qc 100.0 /\ 0 < Q2Qc 0.02
  /\ @Game.run _ _ sample_exp sample_oracle sample_game <> Raise ZeroDivisionError.
Proof.
  split; [reflexivity|]. split; [reflexivity|].
  apply (@no_division_by_zero _ _ sample_exp sample_oracle SimpleMarketMaker.default
           ChallengeManager.init 3 (Q2Qc 100.0) (Q2Qc 0.02)); reflexivity.
Defined.

(** * Further properties of the code *)

(** ** Division on the numbers *)

Lemma div_le_iff (a b c : float) : 0 < c -> (a / c <= b <-> a <= b * c).
Proof.
  intros Hc.
  assert (Hne : c <> 0) by (apply positive_nonzero, Hc).
  rewrite (Qcmult_le_mono_pos_r (a / c) b c Hc).
  replace (a / c * c) with a by (field; exact Hne). reflexivity.
Qed.

Lemma div_lt_iff (a b c : float) : 0 < c -> (a / c < b <-> a < b * c).
Proof.
  intros Hc.
  assert (Hne : c <> 0) by (apply positive_nonzero, Hc).
  rewrite (Qcmult_lt_mono_pos_r (a / c) b c Hc).
  replace (a / c * c) with a by (field; exact Hne). reflexivity.
Qed.

Lemma div_nonneg (a c : float) : 0 <= a -> 0 < c -> 0 <= a / c.
Proof.
  intros Ha Hc.
  assert (Hne : c <> 0) by (apply positive_nonzero, Hc).
  apply (Qcmult_le_mono_pos_r 0 (a / c) c Hc).
  replace (a / c * c) with a by (field; exact Hne).
  replace (0 * c) with (Q2Qc 0) by ring. exact Ha.
Qed.

Lemma div_nonpos (a c : float) : 0 <= a -> c < 0 -> a / c <= 0.
Proof.
  intros Ha Hc.
  assert (Hne : c <> 0) by (intros ->; discriminate Hc).
  assert (Hopp : 0 < - c) by (clear -Hc; qc_to_q; lra).
  pose proof (div_nonneg a (- c) Ha Hopp) as Hq.
  replace (a / c) with (- (a / - c))
    by (field; split; [exact Hne | apply positive_nonzero, Hopp]).
  clear -Hq. qc_to_q. lra.
Qed.

(** ** Quotes around the price *)

Lemma simple_quotes_bracket (mm : SimpleMarketMaker.t) (price volatility : float) :
  0 <= SimpleMarketMaker.spread_multiplier mm ->
  Q2Qc 0.01 <= price -> 0 <= volatility ->
  fst (make_market mm price volatility) <= price
  /\ price <= snd (make_market mm price volatility).
Proof.
  intros Hm Hp Hv.
  unfold make_market, SimpleMarketMaker.make_market. cbn [fst snd].
  set (spread := price * volatility * SimpleMarketMaker.spread_multiplier mm).
  assert (Hs : 0 <= spread).
  { unfold spread. clear -Hm Hp Hv. qc_to_q.
    assert (0 <= price * volatility)%Q by nra. nra. }
  clearbody spread. split.
  - unfold Py.max. case_bool_decide; [|exact Hp]. clear -Hs. qc_to_q. lra.
  - clear -Hs. qc_to_q. lra.
Qed.



(** ** Profit and loss of a day *)

Lemma simulate_trades_at_quotes {M : Type} (d : Random.Draws) (bid ask : float)
    (g : Game.t M) :
  Forall (trade_at_quotes bid ask) (Game.simulate_trades d bid ask g).
Proof.
  unfold Game.simulate_trades, trade_at_quotes, buy_at, sell_at.
  repeat case_bool_decide; try destruct (Random.choice_bool d); cbn;
    repeat (apply Forall_cons_2; [(left; reflexivity) || (right; reflexivity)|]);
    apply Forall_nil_2.
Qed.

Lemma daily_pnl_nonneg {M : Type} (bid ask : float) (trades : list TradeResult.t)
    (g : Game.t M) :
  bid <= price (Market.state (Game.market g)) ->
  price (Market.state (Game.market g)) <= ask ->
  Forall (trade_at_quotes bid ask) trades ->
  0 <= Game.calculate_daily_pnl trades g.
Proof.
  intros Hbid Hask Htrades. unfold Game.calculate_daily_pnl, Market.get_state.
  set (market_price := price (Market.state (Game.market g))) in *.
  assert (Hacc : 0 <= Q2Qc 0.0) by discriminate.
  revert Hacc. generalize (Q2Qc 0.0) as acc. clearbody market_price.
  induction Htrades as [|t trades [-> | ->] _ IH]; intros acc Hacc; cbn.
  - exact Hacc.
  - apply IH. clear -Hacc Hbid. qc_to_q. lra.
  - apply IH. clear -Hacc Hask. qc_to_q. lra.
Qed.

(** What a day that returns has done, in terms of the market it leaves. *)
Lemma simulate_day_quotes {M : Type} `{MarketMaker M} `{Libm}
    (day : Z) (d : Random.Draws) (g g' : Game.t M) (daily_pnl : float) :
  Game.simulate_day day d g = Ok (daily_pnl, g') ->
  exists (bid ask : float) (challenge : Challenge.t),
    market_invariant (Market.state (Game.market g'))
    /\ make_market (Game.market_maker g) (price (Market.state (Game.market g')))
         (volatility (Market.state (Game.market g'))) = (bid, ask)
    /\ daily_pnl = Game.calculate_daily_pnl (Game.simulate_trades d bid ask g') g'
    /\ Game.daily_results g'
       = Game.daily_results g ++ [(day, bid, ask, daily_pnl, Challenge.name challenge)]
    /\ Market.day (Game.market g') = (Market.day (Game.market g) + 1)%Z.
Proof.
  unfold Game.simulate_day.
  destruct (ChallengeManager.apply_challenge _ _ _ _)
    as [[[new_price new_volatility] challenge]|e]; [|discriminate].
  cbn [mbind result_bind].
  destruct (Game.apply_relative _ _ _) as [m|e] eqn:Hrel; [|discriminate].
  cbn [mbind result_bind].
  destruct (make_market _ _ _) as [bid ask] eqn:Hquotes.
  intros [= <- <-].
  apply apply_relative_inv in Hrel as (_ & _ & ->).
  exists bid, ask, challenge.
  cbn [Game.set_market Game.market Game.market_maker Market.get_state] in Hquotes.
  unfold Game.log_daily_results.
  cbn [Game.set_daily_results Game.set_market Game.market Game.market_maker
       Game.daily_results].
  split; [apply apply_challenge_floors|].
  split; [exact Hquotes|].
  split; [reflexivity|]. split; reflexivity.
Qed.

Lemma simple_maker_day_pnl `{Libm}
    (day : Z) (d : Random.Draws) (g g' : Game.t SimpleMarketMaker.t) (daily_pnl : float) :
  0 <= SimpleMarketMaker.spread_multiplier (Game.market_maker g) ->
  Game.simulate_day day d g = Ok (daily_pnl, g') ->
  0 <= daily_pnl
  /\ exists r : DayRecord,
       Game.daily_results g' = Game.daily_results g ++ [r]
       /\ record_day r = day /\ record_pnl r = daily_pnl /\ sound_record r.
Proof.
  intros Hm Hday.
  apply simulate_day_quotes in Hday
    as (bid & ask & challenge & [Hp Hv] & Hquotes & -> & Hlog & _).
  assert (Hv0 : 0 <= volatility (Market.state (Game.market g')))
    by (apply Qcle_trans with (Q2Qc 0.001); [discriminate | exact Hv]).
  destruct (simple_quotes_bracket _ _ _ Hm Hp Hv0) as [Hbid Hask].
  rewrite Hquotes in Hbid, Hask. cbn [fst snd] in Hbid, Hask.
  assert (Hpnl : 0 <= Game.calculate_daily_pnl (Game.simulate_trades d bid ask g') g')
    by (apply (daily_pnl_nonneg bid ask); [exact Hbid | exact Hask
                                          | apply simulate_trades_at_quotes]).
  split; [exact Hpnl|].
  eexists. split; [exact Hlog|]. split; [reflexivity|]. split; [reflexivity|].
  pose proof (make_market_formulas (Game.market_maker g)
                (price (Market.state (Game.market g')))
                (volatility (Market.state (Game.market g')))) as [_ Hfloor].
  rewrite Hquotes in Hfloor. cbn [fst] in Hfloor.
  split; [exact Hfloor|]. split; [|exact Hpnl].
  cbn. apply Qcle_trans with (price (Market.state (Game.market g'))); assumption.
Qed.




(** ** A run with [SimpleMarketMaker] *)


Lemma run_loop_simple_maker `{Libm} (oracle : Z -> Random.Draws) (l : list Z)
    (g g' : Game.t SimpleMarketMaker.t) :
  0 <= SimpleMarketMaker.spread_multiplier (Game.market_maker g) ->
  Forall sound_record (Game.daily_results g) ->
  Game.run_loop oracle l g = Ok g' ->
  Forall sound_record (Game.daily_results g')
  /\ Game.total_pnl g <= Game.total_pnl g'.
Proof.
  revert g. induction l as [|day l IH]; intros g Hm Hlog.
  - intros [= <-]. split; [exact Hlog | apply Qcle_refl].
  - cbn [Game.run_loop].
    destruct (Game.simulate_day day (oracle day) g) as [[daily_pnl g1]|e] eqn:Hday;
      [|discriminate].
    cbn [mbind result_bind]. intros Hloop.
    pose proof (simulate_day_inv _ _ _ _ _ Hday) as (_ & _ & Htotal & _ & Hmm & _).
    destruct (simple_maker_day_pnl _ _ _ _ _ Hm Hday) as (Hpnl & r & Hlog1 & _ & _ & Hr).
    apply IH in Hloop as [Hlog' Hle].
    + split; [exact Hlog'|].
      apply Qcle_trans with (Game.total_pnl g1 + daily_pnl); [|exact Hle].
      rewrite Htotal. clear -Hpnl. qc_to_q. lra.
    + cbn. rewrite Hmm. exact Hm.
    + cbn. rewrite Hlog1. apply Forall_app. split; [exact Hlog|].
      apply Forall_cons_2; [exact Hr | apply Forall_nil_2].
Qed.





(** ** The deterministic trade, by volatility *)



(** ** Runs that stop at once *)

Lemma range_cons (lo hi : Z) : (lo < hi)%Z -> Py.range lo hi = lo :: Py.range (lo + 1) hi.
Proof.
  intros Hlt. unfold Py.range.
  replace (Z.to_nat (hi - lo)) with (S (Z.to_nat (hi - (lo + 1)))) by lia.
  cbn [seq map]. f_equal; [lia|].
  rewrite <- seq_shift, map_map. apply map_ext. intros i. lia.
Qed.

Lemma range_empty (lo hi : Z) : (hi <= lo)%Z -> Py.range lo hi = [].
Proof.
  intros Hle. unfold Py.range. replace (Z.to_nat (hi - lo)) with 0%nat by lia.
  reflexivity.
Qed.

Lemma simulate_day_zero_volatility {M : Type} `{MarketMaker M} `{Libm}
    (day : Z) (d : Random.Draws) (g : Game.t M) :
  ChallengeManager.challenges (Game.challenge_manager g) <> [] ->
  volatility (Market.state (Game.market g)) = 0 ->
  Game.simulate_day day d g = Raise ZeroDivisionError.
Proof.
  intros Hcm Hvol.
  destruct (choice_nonempty (Random.choice_index d) _ Hcm) as (challenge & Hch & _).
  unfold Game.simulate_day, ChallengeManager.apply_challenge,
    ChallengeManager.get_random_challenge.
  cbn [Game.set_market Game.market Game.challenge_manager Market.get_state].
  rewrite Hch. cbn [mbind result_bind].
  destruct (Challenge.effect challenge d _ _) as [new_price new_volatility].
  cbn [mbind result_bind].
  unfold Game.apply_relative, Market.get_state.
  rewrite (div_nonzero new_price (price (Market.state (Market.update d (Game.market g)))))
    by (apply (floor_nonzero (Q2Qc 0.01)); [reflexivity | apply update_price_floor]).
  cbn [mbind result_bind]. rewrite update_volatility, Hvol. reflexivity.
Qed.

(** X5. A market with volatility zero stops the simulation: with a
    catalogue to draw from, [simulate_day] raises [ZeroDivisionError] (the
    volatility target is divided by the current volatility), and so does
    [run] as soon as it has one day to simulate. *)
Theorem zero_volatility_divides_by_zero {M : Type} `{MarketMaker M} `{Libm}
    (oracle : Z -> Random.Draws) (g : Game.t M) :
  ChallengeManager.challenges (Game.challenge_manager g) <> [] ->
  volatility (Market.state (Game.market g)) = 0 ->
  (forall (day : Z) (d : Random.Draws),
      Game.simulate_day day d g = Raise ZeroDivisionError)
  /\ ((1 <= Game.days g)%Z -> Game.run oracle g = Raise ZeroDivisionError).
Proof.
  intros Hcm Hvol. split.
  - intros day d. apply simulate_day_zero_volatility; assumption.
  - intros Hdays. unfold Game.run. rewrite range_cons by lia.
    cbn [Game.run_loop]. rewrite simulate_day_zero_volatility by assumption.
    reflexivity.
Qed.

Lemma zero_volatility_divides_by_zero_witness :
  @Game.run _ _ sample_exp sample_oracle
    (Game.init (Market.init (Q2Qc 100.0) 0) ChallengeManager.init
       SimpleMarketMaker.default 63)
  = Raise ZeroDivisionError.
Proof.
  refine (proj2 (@zero_volatility_divides_by_zero _ _ sample_exp sample_oracle
                   (Game.init (Market.init (Q2Qc 100.0) 0) ChallengeManager.init
                      SimpleMarketMaker.default 63) _ _) _).
  - discriminate.
  - reflexivity.
  - discriminate.
Defined.

(** X6. A game configured for no day at all (zero or a negative number)
    is left exactly as it is: [run] returns at once with the score of the
    current state, which for a freshly created game is 0. *)
Theorem run_without_days {M : Type} `{MarketMaker M} `{Libm}
    (oracle : Z -> Random.Draws) (g : Game.t M) :
  (Game.days g <= 0)%Z ->
  Game.run oracle g = Ok (Game.calculate_score g, g)
  /\ (Game.total_pnl g = Q2Qc 0.0 -> Game.daily_results g = [] ->
      Game.calculate_score g = 0).
Proof.
  intros Hdays. split.
  - unfold Game.run. rewrite range_empty by lia. reflexivity.
  - intros Htotal Hlog. unfold Game.calculate_score, Game.get_max_consecutive_positive_days.
    rewrite Htotal, Hlog. apply Qc_is_canon. reflexivity.
Qed.

Lemma run_without_days_witness :
  @Game.run _ _ sample_exp sample_oracle
    (Game.init (Market.init (Q2Qc 100.0) (Q2Qc 0.02)) ChallengeManager.init
       SimpleMarketMaker.default (-3))
  = Ok (Game.calculate_score
          (Game.init (Market.init (Q2Qc 100.0) (Q2Qc 0.02)) ChallengeManager.init
             SimpleMarketMaker.default (-3)),
        Game.init (Market.init (Q2Qc 100.0) (Q2Qc 0.02)) ChallengeManager.init
          SimpleMarketMaker.default (-3)).
Proof.
  refine (proj1 (@run_without_days _ _ sample_exp sample_oracle
                   (Game.init (Market.init (Q2Qc 100.0) (Q2Qc 0.02)) ChallengeManager.init
                      SimpleMarketMaker.default (-3)) _)).
  discriminate.
Defined.

(** ** What a run leaves alone, and the market's day counter *)

Lemma run_loop_day_counter {M : Type} `{MarketMaker M} `{Libm}
    (oracle : Z -> Random.Draws) (l : list Z) (g g' : Game.t M) :
  Game.run_loop oracle l g = Ok g' ->
  Market.day (Game.market g') = (Market.day (Game.market g) + Z.of_nat (length l))%Z.
Proof.
  revert g. induction l as [|day l IH]; intros g.
  - intros [= <-]. cbn. lia.
  - cbn [Game.run_loop].
    destruct (Game.simulate_day day (oracle day) g) as [[daily_pnl g1]|e] eqn:Hday;
      [|discriminate].
    cbn [mbind result_bind]. intros Hloop.
    apply simulate_day_quotes in Hday as (_ & _ & _ & _ & _ & _ & _ & Hcounter).
    apply IH in Hloop. cbn [Game.set_total_pnl Game.market] in Hloop.
    rewrite Hloop, Hcounter. cbn [length]. lia.
Qed.

(** X7. A run that returns has changed neither the challenge manager nor
    the market maker nor the number of days of the game, and the market's
    day counter has advanced by exactly the number of simulated days
    ([days], or nothing when [days] is negative). [Market.apply_challenge]
    never touches the counter; [Market.update] adds one. *)
Theorem run_frame_and_day_counter {M : Type} `{MarketMaker M} `{Libm}
    (oracle : Z -> Random.Draws) (g g' : Game.t M) (score : float) :
  Game.run oracle g = Ok (score, g') ->
  Game.challenge_manager g' = Game.challenge_manager g
  /\ Game.market_maker g' = Game.market_maker g
  /\ Game.days g' = Game.days g
  /\ Market.day (Game.market g') = (Market.day (Game.market g) + Z.max 0 (Game.days g))%Z
  /\ (forall (d : Random.Draws) (m : Market.t) (price_factor volatility_factor : float),
         Market.day (Market.update d m) = (Market.day m + 1)%Z
         /\ Market.day (Market.apply_challenge price_factor volatility_factor m)
            = Market.day m).
Proof.
  intros Hrun. unfold Game.run in Hrun.
  destruct (Game.run_loop oracle _ g) as [g1|e] eqn:Hloop; [|discriminate].
  cbn [mbind result_bind] in Hrun. injection Hrun as _ <-.
  pose proof (run_loop_inv oracle _ _ _ Hloop) as (_ & Hcm & Hmm & Hdays & _).
  apply run_loop_day_counter in Hloop. rewrite range_length in Hloop.
  split; [exact Hcm|]. split; [exact Hmm|]. split; [exact Hdays|].
  split; [rewrite Hloop; lia|].
  intros d m price_factor volatility_factor. split; reflexivity.
Qed.

Lemma run_frame_and_day_counter_witness :
  exists (score : float) (g' : Game.t SimpleMarketMaker.t),
    @Game.run _ _ sample_exp sample_oracle sample_game = Ok (score, g')
    /\ Market.day (Game.market g') = 3%Z.
Proof.
  destruct (@run_loop_succeeds _ _ sample_exp sample_oracle
              (Py.range 1 (Game.days sample_game + 1)) sample_game)
    as [g' Hloop]; [discriminate | discriminate |].
  assert (Hrun : @Game.run _ _ sample_exp sample_oracle sample_game
                 = Ok (@Game.calculate_score SimpleMarketMaker.t g', g'))
    by (unfold Game.run; rewrite Hloop; reflexivity).
  exists (Game.calculate_score g'), g'. split; [exact Hrun|].
  destruct (@run_frame_and_day_counter _ _ sample_exp sample_oracle _ _ _ Hrun)
    as (_ & _ & _ & Hcounter & _).
  exact Hcounter.
Defined.

(** ** The catalogue of challenges *)

Lemma choice_inv {A : Type} (k : nat) (seq : list A) (a : A) :
  Random.choice k seq = Ok a -> In a seq.
Proof.
  unfold Random.choice.
  destruct (nth_error seq (k mod length seq)) as [x|] eqn:Hnth; [|discriminate].
  intros [= <-]. eapply nth_error_In, Hnth.
Qed.

(** X8. [get_random_challenge] raises [IndexError] exactly when the
    catalogue is empty; otherwise it returns a member of the catalogue,
    whatever index is drawn. On the catalogue [ChallengeManager()] builds it
    always returns one of the five predefined challenges. *)
Theorem get_random_challenge_member (d : Random.Draws) (self : ChallengeManager.t) :
  (ChallengeManager.get_random_challenge d self = Raise IndexError
   <-> ChallengeManager.challenges self = [])
  /\ (forall challenge : Challenge.t,
         ChallengeManager.get_random_challenge d self = Ok challenge ->
         In challenge (ChallengeManager.challenges self))
  /\ (ChallengeManager.challenges self <> [] ->
      exists challenge : Challenge.t,
        ChallengeManager.get_random_challenge d self = Ok challenge)
  /\ (exists challenge : Challenge.t,
         ChallengeManager.get_random_challenge d ChallengeManager.init = Ok challenge
         /\ In (Challenge.name challenge)
              ["Volatility Spike"; "Market Crash"; "Bull Run"; "Calm Markets";
               "Economic News"]).
Proof.
  unfold ChallengeManager.get_random_challenge. split; [|split; [|split]].
  - split.
    + intros Hraise. destruct (ChallengeManager.challenges self) as [|c cs] eqn:Hcs;
        [reflexivity|].
      destruct (choice_nonempty (Random.choice_index d) (c :: cs)) as (a & Ha & _);
        [discriminate|]. rewrite Ha in Hraise. discriminate.
    + intros ->. apply choice_empty.
  - intros challenge. apply choice_inv.
  - intros Hne. destruct (choice_nonempty (Random.choice_index d) _ Hne) as (a & Ha & _).
    exists a. exact Ha.
  - destruct (choice_nonempty (Random.choice_index d)
                (ChallengeManager.challenges ChallengeManager.init))
      as (a & Ha & Hin); [discriminate|].
    exists a. split; [exact Ha|].
    unfold ChallengeManager.init in Hin. cbn [ChallengeManager.challenges In] in Hin.
    cbn [In].
    destruct Hin as [<-|[<-|[<-|[<-|[<-|[]]]]]]; cbn [Challenge.name]; auto 6.
Qed.

Lemma get_random_challenge_member_witness :
  exists challenge : Challenge.t,
    ChallengeManager.get_random_challenge sample_draws ChallengeManager.init = Ok challenge.
Proof.
  refine (proj1 (proj2 (proj2 (get_random_challenge_member sample_draws
                                 ChallengeManager.init))) _).
  discriminate.
Defined.

Lemma predefined_effect_bounds (d : Random.Draws) (challenge : Challenge.t)
    (price volatility : float) :
  In challenge (ChallengeManager.challenges ChallengeManager.init) ->
  uniform_in_bounds d -> 0 <= price -> 0 <= volatility ->
  (Q2Qc 0.8 * price <= fst (Challenge.effect challenge d price volatility)
   /\ fst (Challenge.effect challenge d price volatility) <= Q2Qc 1.2 * price)
  /\ (Q2Qc 0.5 * volatility <= snd (Challenge.effect challenge d price volatility)
      /\ snd (Challenge.effect challenge d price volatility) <= Q2Qc 2 * volatility).
Proof.
  intros Hin [[Hp1 Hp2] [Hv1 Hv2]] Hp Hv.
  unfold ChallengeManager.init in Hin. cbn [ChallengeManager.challenges In] in Hin.
  destruct Hin as [<-|[<-|[<-|[<-|[<-|[]]]]]]; cbn [Challenge.effect fst snd];
    change (of_int 2) with (Q2Qc 2);
    generalize dependent (Random.uniform_price d);
    generalize dependent (Random.uniform_volatility d);
    intros uv Hv1 Hv2 up Hp1 Hp2; clear d;
    qc_to_q; repeat split; nra.
Qed.

(** X9. Each of the five predefined challenges, with the values of
    [random.uniform] inside the bounds it is called with, sets a price
    target between 0.8 and 1.2 times the price and a volatility target
    between 0.5 and 2 times the volatility (for a price and a volatility
    that are not negative). *)
Theorem predefined_challenge_targets (d : Random.Draws) (challenge : Challenge.t)
    (price volatility : float) :
  In challenge (ChallengeManager.challenges ChallengeManager.init) ->
  uniform_in_bounds d -> 0 <= price -> 0 <= volatility ->
  (Q2Qc 0.8 * price <= fst (Challenge.effect challenge d price volatility)
   /\ fst (Challenge.effect challenge d price volatility) <= Q2Qc 1.2 * price)
  /\ (Q2Qc 0.5 * volatility <= snd (Challenge.effect challenge d price volatility)
      /\ snd (Challenge.effect challenge d price volatility) <= Q2Qc 2 * volatility).
Proof.
  intros Hin Hd Hp Hv. exact (predefined_effect_bounds d challenge price volatility Hin Hd Hp Hv).
Qed.

Lemma predefined_challenge_targets_witness :
  uniform_in_bounds sample_draws
  /\ Q2Qc 0.8 * Q2Qc 100
     <= fst (Challenge.effect
               (Challenge.mk "Market Crash" "A sudden downturn causes prices to plummet."
                  (fun _ p v => (p * Q2Qc 0.8, v * Q2Qc 1.5)))
               sample_draws (Q2Qc 100) (Q2Qc 0.02)).
Proof.
  assert (Hd : uniform_in_bounds sample_draws) by (repeat split; discriminate).
  split; [exact Hd|].
  refine (proj1 (proj1 (predefined_challenge_targets sample_draws _ (Q2Qc 100) (Q2Qc 0.02)
                          _ Hd _ _))).
  - right. left. reflexivity.
  - discriminate.
  - discriminate.
Defined.

(** ** How far one day moves the market *)





(** ** utils.py: spread and market impact *)

Lemma two_nonzero : of_int 2 <> 0.
Proof. discriminate. Qed.

Lemma half_zero_iff (x : float) : x / of_int 2 = 0 <-> x = 0.
Proof.
  split.
  - intros Hhalf. replace x with (x / of_int 2 * of_int 2) by (field; exact two_nonzero).
    rewrite Hhalf. ring.
  - intros ->. field. exact two_nonzero.
Qed.

Lemma bid_ask_spread_value (bid ask : float) :
  bid + ask <> 0 ->
  Utils.calculate_bid_ask_spread bid ask = Ok ((ask - bid) / ((bid + ask) / of_int 2)).
Proof.
  intros Hne. unfold Utils.calculate_bid_ask_spread.
  rewrite (div_nonzero _ _ two_nonzero). cbn [mbind result_bind].
  apply div_nonzero. intros Hmid. apply Hne. apply half_zero_iff, Hmid.
Qed.

Lemma bid_ask_spread_range (bid ask : float) :
  0 < bid -> bid <= ask ->
  exists spread : float,
    Utils.calculate_bid_ask_spread bid ask = Ok spread
    /\ 0 <= spread /\ spread <= Q2Qc 2.
Proof.
  intros Hbid Hle.
  assert (Hmid : 0 < (bid + ask) / of_int 2).
  { apply (Qcmult_lt_mono_pos_r 0 ((bid + ask) / of_int 2) (of_int 2)); [reflexivity|].
    replace ((bid + ask) / of_int 2 * of_int 2) with (bid + ask)
      by (field; exact two_nonzero).
    clear -Hbid Hle. qc_to_q. lra. }
  assert (Hne : bid + ask <> 0)
    by (apply positive_nonzero; clear -Hbid Hle; qc_to_q; lra).
  eexists. split; [apply bid_ask_spread_value, Hne|]. split.
  - apply div_nonneg; [|exact Hmid]. clear -Hle. qc_to_q. lra.
  - apply div_le_iff; [exact Hmid|].
    replace (Q2Qc 2 * ((bid + ask) / of_int 2)) with (bid + ask)
      by (change (of_int 2) with (Q2Qc 2); field; discriminate).
    clear -Hbid. qc_to_q. lra.
Qed.

Lemma market_impact_sign (trade_price market_price : float) :
  0 < market_price ->
  exists impact : float,
    Utils.calculate_market_impact trade_price market_price = Ok impact
    /\ (trade_price <= market_price -> impact <= 0)
    /\ (market_price <= trade_price -> 0 <= impact).
Proof.
  intros Hpos. assert (Hne : market_price <> 0) by (apply positive_nonzero, Hpos).
  unfold Utils.calculate_market_impact.
  eexists. split; [apply div_nonzero, Hne|]. split.
  - intros Hle. apply div_le_iff; [exact Hpos|].
    replace (0 * market_price) with (Q2Qc 0) by ring.
    clear -Hle. qc_to_q. lra.
  - intros Hle. apply div_nonneg; [|exact Hpos]. clear -Hle. qc_to_q. lra.
Qed.

(** X11. [calculate_bid_ask_spread] raises [ZeroDivisionError] exactly
    when the mid price [(bid + ask) / 2] is zero, as it is when
    [bid + ask = 0], and raises nothing else; otherwise it returns
    [(ask - bid) / ((bid + ask) / 2)]. For uncrossed quotes with a bid
    above zero it returns a value between 0 and 2. *)
Theorem bid_ask_spread_behaviour (bid ask : float) :
  (Utils.calculate_bid_ask_spread bid ask = Raise ZeroDivisionError
   <-> (bid + ask) / of_int 2 = 0)
  /\ (bid + ask = 0 ->
      Utils.calculate_bid_ask_spread bid ask = Raise ZeroDivisionError)
  /\ (forall e : exn,
         Utils.calculate_bid_ask_spread bid ask = Raise e -> e = ZeroDivisionError)
  /\ ((bid + ask) / of_int 2 <> 0 ->
      Utils.calculate_bid_ask_spread bid ask
      = Ok ((ask - bid) / ((bid + ask) / of_int 2)))
  /\ (0 < bid -> bid <= ask ->
      exists spread : float,
        Utils.calculate_bid_ask_spread bid ask = Ok spread
        /\ 0 <= spread /\ spread <= Q2Qc 2).
Proof.
  assert (Hrun : Utils.calculate_bid_ask_spread bid ask
                 = Py.div (ask - bid) ((bid + ask) / of_int 2)).
  { unfold Utils.calculate_bid_ask_spread.
    rewrite (div_nonzero _ _ two_nonzero). reflexivity. }
  assert (Hzero : (bid + ask) / of_int 2 = 0 ->
                  Utils.calculate_bid_ask_spread bid ask = Raise ZeroDivisionError)
    by (intros Hz; rewrite Hrun, Hz; apply div_zero).
  assert (Hvalue : (bid + ask) / of_int 2 <> 0 ->
                   Utils.calculate_bid_ask_spread bid ask
                   = Ok ((ask - bid) / ((bid + ask) / of_int 2)))
    by (intros Hne; rewrite Hrun; apply div_nonzero, Hne).
  split; [|split; [|split; [|split]]].
  - split; [|exact Hzero].
    intros Hraise. destruct (decide ((bid + ask) / of_int 2 = 0)) as [Hz|Hne]; [exact Hz|].
    rewrite (Hvalue Hne) in Hraise. discriminate.
  - intros Hz. apply Hzero, half_zero_iff, Hz.
  - intros e. destruct (decide ((bid + ask) / of_int 2 = 0)) as [Hz|Hne].
    + rewrite (Hzero Hz). intros [= <-]. reflexivity.
    + rewrite (Hvalue Hne). discriminate.
  - exact Hvalue.
  - apply bid_ask_spread_range.
Qed.

Lemma bid_ask_spread_behaviour_witness :
  0 < Q2Qc 99 /\ Q2Qc 99 <= Q2Qc 101
  /\ exists spread : float,
       Utils.calculate_bid_ask_spread (Q2Qc 99) (Q2Qc 101) = Ok spread
       /\ 0 <= spread /\ spread <= Q2Qc 2.
Proof.
  assert (Hbid : 0 < Q2Qc 99) by reflexivity.
  assert (Hle : Q2Qc 99 <= Q2Qc 101) by discriminate.
  split; [exact Hbid|]. split; [exact Hle|].
  destruct (bid_ask_spread_behaviour (Q2Qc 99) (Q2Qc 101)) as (_ & _ & _ & _ & Hrange).
  exact (Hrange Hbid Hle).
Defined.



(** X13. [calculate_market_impact] raises [ZeroDivisionError] exactly when
    the market price is zero, and raises nothing else. For a market price
    above zero the impact is zero or less when the trade price is at or
    below the market price and zero or more when it is at or above it, so
    a negative impact means a trade below the market price and a positive
    one a trade above it. For a market price below zero the signs are the
    other way round. *)
Theorem market_impact_behaviour (trade_price market_price : float) :
  (Utils.calculate_market_impact trade_price market_price = Raise ZeroDivisionError
   <-> market_price = 0)
  /\ (forall e : exn,
         Utils.calculate_market_impact trade_price market_price = Raise e ->
         e = ZeroDivisionError)
  /\ (0 < market_price ->
      exists impact : float,
        Utils.calculate_market_impact trade_price market_price = Ok impact
        /\ (trade_price <= market_price -> impact <= 0)
        /\ (market_price <= trade_price -> 0 <= impact)
        /\ (impact < 0 -> trade_price < market_price)
        /\ (0 < impact -> market_price < trade_price))
  /\ (market_price < 0 ->
      exists impact : float,
        Utils.calculate_market_impact trade_price market_price = Ok impact
        /\ (trade_price <= market_price -> 0 <= impact)
        /\ (market_price <= trade_price -> impact <= 0)).
Proof.
  split; [|split; [|split]].
  - unfold Utils.calculate_market_impact. split.
    + intros Hraise. destruct (decide (market_price = 0)) as [Hz|Hne]; [exact Hz|].
      rewrite (div_nonzero _ _ Hne) in Hraise. discriminate.
    + intros ->. apply div_zero.
  - unfold Utils.calculate_market_impact. intros e.
    destruct (decide (market_price = 0)) as [-> | Hne].
    + rewrite div_zero. intros [= <-]. reflexivity.
    + rewrite (div_nonzero _ _ Hne). discriminate.
  - intros Hpos.
    destruct (market_impact_sign trade_price market_price Hpos)
      as (impact & Himpact & Hbelow & Habove).
    exists impact. split; [exact Himpact|]. split; [exact Hbelow|].
    split; [exact Habove|]. split.
    + intros Hneg. apply Qcnot_le_lt. intros Hle.
      exact (Qclt_not_le _ _ Hneg (Habove Hle)).
    + intros Hgt. apply Qcnot_le_lt. intros Hle.
      exact (Qclt_not_le _ _ Hgt (Hbelow Hle)).
  - intros Hneg.
    assert (Hne : market_price <> 0) by (intros ->; discriminate Hneg).
    unfold Utils.calculate_market_impact.
    eexists. split; [apply div_nonzero, Hne|]. split.
    + intros Hle.
      assert (Hopp : 0 < - market_price) by (clear -Hneg; qc_to_q; lra).
      replace ((trade_price - market_price) / market_price)
        with ((market_price - trade_price) / - market_price)
        by (field; repeat split; try exact Hne; apply positive_nonzero, Hopp).
      apply div_nonneg; [clear -Hle; qc_to_q; lra | exact Hopp].
    + intros Hle. apply div_nonpos; [clear -Hle; qc_to_q; lra | exact Hneg].
Qed.

Lemma market_impact_behaviour_witness :
  0 < Q2Qc 100 /\ Q2Qc 99 <= Q2Qc 100
  /\ exists impact : float,
       Utils.calculate_market_impact (Q2Qc 99) (Q2Qc 100) = Ok impact /\ impact <= 0.
Proof.
  assert (Hpos : 0 < Q2Qc 100) by reflexivity.
  assert (Hle : Q2Qc 99 <= Q2Qc 100) by discriminate.
  split; [exact Hpos|]. split; [exact Hle|].
  destruct (market_impact_behaviour (Q2Qc 99) (Q2Qc 100)) as (_ & _ & Hsign & _).
  destruct (Hsign Hpos) as (impact & Himpact & Hbelow & _).
  exists impact. split; [exact Himpact | exact (Hbelow Hle)].
Defined.

(** ** utils.py: the maximum drawdown *)

Lemma greatest_unique (l : list float) (a b : float) :
  greatest l a -> greatest l b -> a = b.
Proof.
  intros [Ha Hla] [Hb Hlb]. apply Qcle_antisym.
  - rewrite Forall_forall in Hlb. apply Hlb. apply list_elem_of_In, Ha.
  - rewrite Forall_forall in Hla. apply Hla. apply list_elem_of_In, Hb.
Qed.

Lemma greatest_singleton (x : float) : greatest [x] x.
Proof.
  split; [left; reflexivity|].
  apply Forall_cons_2; [apply Qcle_refl | apply Forall_nil_2].
Qed.

Lemma greatest_snoc (l : list float) (peak x : float) :
  greatest l peak ->
  greatest (l ++ [x]) (if bool_decide (peak < x) then x else peak).
Proof.
  intros [Hin Hall]. case_bool_decide as Hlt.
  - split; [apply in_or_app; right; left; reflexivity|].
    apply Forall_app. split.
    + eapply Forall_impl; [exact Hall|]. intros y Hy. cbn beta in Hy.
      apply Qcle_trans with peak; [exact Hy | apply Qclt_le_weak, Hlt].
    + apply Forall_cons_2; [apply Qcle_refl | apply Forall_nil_2].
  - split; [apply in_or_app; left; exact Hin|].
    apply Forall_app. split; [exact Hall|].
    apply Forall_cons_2; [apply Qcnot_lt_le, Hlt | apply Forall_nil_2].
Qed.

Lemma drawdown_at_snoc (l : list float) (x dd : float) :
  drawdown_at (l ++ [x]) dd
  <-> drawdown_at l dd
      \/ exists peak : float, greatest (l ++ [x]) peak /\ dd = (peak - x) / peak.
Proof.
  split.
  - intros (before & after & value & peak & Hsplit & Hpeak & Hdd).
    destruct after as [|y after _] using rev_ind.
    + apply app_inj_tail in Hsplit as [-> ->]. right. exists peak. auto.
    + left. exists before, after, value, peak.
      change (before ++ value :: after ++ [y]) with (before ++ (value :: after) ++ [y])
        in Hsplit.
      rewrite app_assoc in Hsplit. apply app_inj_tail in Hsplit as [-> _]. auto.
  - intros [(before & after & value & peak & -> & Hpeak & Hdd)
           | (peak & Hpeak & Hdd)].
    + exists before, (after ++ [x]), value, peak.
      rewrite <- app_assoc. auto.
    + exists l, [], x, peak. auto.
Qed.

Lemma max_drawdown_step_value (peak max_dd value : float) :
  (if bool_decide (peak < value) then value else peak) <> 0 ->
  Utils.max_drawdown_step (peak, max_dd) value
  = Ok (if bool_decide (peak < value) then value else peak,
        Py.max max_dd
          (((if bool_decide (peak < value) then value else peak) - value)
           / (if bool_decide (peak < value) then value else peak))).
Proof.
  intros Hne. unfold Utils.max_drawdown_step. rewrite (div_nonzero _ _ Hne).
  reflexivity.
Qed.

Lemma max_drawdown_step_zero (peak max_dd value : float) :
  (if bool_decide (peak < value) then value else peak) = 0 ->
  Utils.max_drawdown_step (peak, max_dd) value = Raise ZeroDivisionError.
Proof.
  intros Hz. unfold Utils.max_drawdown_step. rewrite Hz. reflexivity.
Qed.

Lemma drawdown_invariant_step (done : list float) (st : float * float) (value : float) :
  drawdown_invariant done st ->
  exists st' : float * float,
    Utils.max_drawdown_step st value = Ok st'
    /\ drawdown_invariant (done ++ [value]) st'.
Proof.
  destruct st as [peak max_dd]. intros (Hpeak & Hpos & Hdd & Hmax & Hhit).
  cbn [fst snd] in *.
  pose proof (greatest_snoc done peak value Hpeak) as Hpeak'.
  set (peak' := if bool_decide (peak < value) then value else peak) in *.
  assert (Hpos' : 0 < peak').
  { unfold peak'. case_bool_decide as Hlt; [|exact Hpos].
    apply Qclt_trans with peak; assumption. }
  assert (Hle : value <= peak').
  { destruct Hpeak' as [_ Hall]. apply Forall_app in Hall as [_ Hlast].
    apply Forall_cons_1 in Hlast as [Hlast _]. exact Hlast. }
  assert (Hne : peak' <> 0) by (apply positive_nonzero, Hpos').
  eexists. split; [apply max_drawdown_step_value; exact Hne|].
  fold peak'. set (dd := (peak' - value) / peak').
  assert (Hddpos : 0 <= dd).
  { apply div_nonneg; [|exact Hpos']. clear -Hle. qc_to_q. lra. }
  split; [exact Hpeak'|]. split; [exact Hpos'|]. cbn [fst snd].
  split; [apply Qcle_trans with max_dd; [exact Hdd | apply max_ge_left]|].
  split.
  - intros x Hx. apply drawdown_at_snoc in Hx as [Hx | (pk & Hpk & ->)].
    + apply Qcle_trans with max_dd; [apply Hmax, Hx | apply max_ge_left].
    + rewrite (greatest_unique _ _ _ Hpk Hpeak'). apply max_ge_right.
  - unfold Py.max. case_bool_decide as Hlt.
    + right. apply drawdown_at_snoc. right. exists peak'. auto.
    + destruct Hhit as [Hz | Hhit]; [left; exact Hz|].
      right. apply drawdown_at_snoc. left. exact Hhit.
Qed.

Lemma drawdown_invariant_loop (rest done : list float) (st : float * float) :
  drawdown_invariant done st ->
  exists st' : float * float,
    Utils.max_drawdown_loop rest st = Ok st'
    /\ drawdown_invariant (done ++ rest) st'.
Proof.
  revert done st. induction rest as [|value rest IH]; intros done st Hinv.
  - exists st. rewrite app_nil_r. auto.
  - cbn [Utils.max_drawdown_loop].
    destruct (drawdown_invariant_step done st value Hinv) as (st1 & -> & Hinv1).
    cbn [mbind result_bind].
    destruct (IH _ _ Hinv1) as (st' & Hloop & Hinv').
    exists st'. rewrite <- app_assoc in Hinv'. auto.
Qed.

Lemma drawdown_at_singleton (x dd : float) : drawdown_at [x] dd -> dd = (x - x) / x.
Proof.
  intros (before & after & value & peak & Hsplit & Hpeak & ->).
  destruct before as [|b before].
  - injection Hsplit as <- <-. cbn [app] in Hpeak.
    rewrite (greatest_unique _ _ _ Hpeak (greatest_singleton x)). reflexivity.
  - injection Hsplit as _ Hsplit. destruct before; discriminate Hsplit.
Qed.

Lemma max_drawdown_first_step (first : float) :
  0 < first ->
  Utils.max_drawdown_step (first, of_int 0) first = Ok (first, of_int 0)
  /\ drawdown_invariant [first] (first, of_int 0).
Proof.
  intros Hpos. assert (Hne : first <> 0) by (apply positive_nonzero, Hpos).
  assert (Hzero : (first - first) / first = 0) by (field; exact Hne).
  split.
  - unfold Utils.max_drawdown_step.
    rewrite (bool_decide_eq_false_2 (first < first))
      by (intros Hlt; exact (Qclt_not_le _ _ Hlt (Qcle_refl first))).
    rewrite (div_nonzero _ _ Hne). cbn [mbind result_bind]. rewrite Hzero.
    reflexivity.
  - split; [apply greatest_singleton|]. split; [exact Hpos|]. cbn [fst snd].
    split; [discriminate|]. split; [|left; reflexivity].
    intros dd Hdd. rewrite (drawdown_at_singleton _ _ Hdd), Hzero. discriminate.
Qed.

Lemma max_drawdown_invariant (first : float) (rest : list float) :
  0 < first ->
  exists st : float * float,
    Utils.max_drawdown (first :: rest) = Ok (snd st)
    /\ drawdown_invariant (first :: rest) st.
Proof.
  intros Hpos. destruct (max_drawdown_first_step first Hpos) as [Hstep Hinv].
  destruct (drawdown_invariant_loop rest [first] _ Hinv) as (st & Hloop & Hinv').
  exists st. split; [|exact Hinv'].
  unfold Utils.max_drawdown. cbn [Utils.max_drawdown_loop].
  rewrite Hstep. cbn [mbind result_bind]. rewrite Hloop. reflexivity.
Qed.

Lemma drawdown_first_le_peak (first : float) (rest before after : list float)
    (value peak : float) :
  first :: rest = before ++ value :: after ->
  greatest (before ++ [value]) peak -> first <= peak.
Proof.
  intros Hsplit [_ Hall]. rewrite Forall_forall in Hall. apply Hall.
  destruct before as [|b before]; injection Hsplit as -> _; left.
Qed.

(** X14. For a series that starts above zero [max_drawdown] returns a
    value. The value is zero or more, it is at least the drawdown at every
    point of the series (the fall from the greatest value so far, relative
    to it), and it is either 0 or the drawdown at one of the points. When
    no value of the series is negative it is at most 1. *)
Theorem max_drawdown_of_positive_start (first : float) (rest : list float) :
  0 < first ->
  exists max_dd : float,
    Utils.max_drawdown (first :: rest) = Ok max_dd
    /\ 0 <= max_dd
    /\ (forall dd : float, drawdown_at (first :: rest) dd -> dd <= max_dd)
    /\ (max_dd = 0 \/ drawdown_at (first :: rest) max_dd)
    /\ (Forall (fun value => 0 <= value) rest -> max_dd <= 1).
Proof.
  intros Hpos.
  destruct (max_drawdown_invariant first rest Hpos)
    as ([peak max_dd] & Hresult & _ & _ & Hnonneg & Hmax & Hhit).
  cbn [fst snd] in *.
  exists max_dd. split; [exact Hresult|]. split; [exact Hnonneg|].
  split; [exact Hmax|]. split; [exact Hhit|].
  intros Hvalues. destruct Hhit as [-> | Hhit]; [discriminate|].
  destruct Hhit as (before & after & value & pk & Hsplit & Hpk & ->).
  assert (Hpkpos : 0 < pk)
    by (apply Qclt_le_trans with first;
        [exact Hpos | exact (drawdown_first_le_peak _ _ _ _ _ _ Hsplit Hpk)]).
  assert (Hvalue : 0 <= value).
  { assert (Hin : In value (first :: rest))
      by (rewrite Hsplit; apply in_or_app; right; left; reflexivity).
    destruct Hin as [<- | Hin]; [apply Qclt_le_weak, Hpos|].
    rewrite Forall_forall in Hvalues. apply Hvalues, list_elem_of_In, Hin. }
  apply div_le_iff; [exact Hpkpos|]. clear -Hvalue. qc_to_q. lra.
Qed.

Lemma max_drawdown_of_positive_start_witness :
  0 < Q2Qc 100
  /\ exists max_dd : float,
       Utils.max_drawdown [Q2Qc 100; Q2Qc 120; Q2Qc 90; Q2Qc 130] = Ok max_dd
       /\ (Q2Qc 120 - Q2Qc 90) / Q2Qc 120 <= max_dd.
Proof.
  assert (Hpos : 0 < Q2Qc 100) by reflexivity.
  split; [exact Hpos|].
  destruct (max_drawdown_of_positive_start (Q2Qc 100) [Q2Qc 120; Q2Qc 90; Q2Qc 130] Hpos)
    as (max_dd & Hresult & _ & Hmax & _).
  exists max_dd. split; [exact Hresult|].
  apply Hmax. exists [Q2Qc 100; Q2Qc 120], [Q2Qc 130], (Q2Qc 90), (Q2Qc 120).
  split; [reflexivity|]. split; [|reflexivity].
  split; [right; left; reflexivity|].
  repeat (apply Forall_cons_2; [discriminate|]). apply Forall_nil_2.
Defined.

(** X15. For a series that starts above zero and in which no value is
    below an earlier one, [max_drawdown] returns 0. *)
Theorem max_drawdown_of_rising_series (first : float) (rest : list float) :
  0 < first -> never_falls (first :: rest) ->
  Utils.max_drawdown (first :: rest) = Ok 0.
Proof.
  intros Hpos Hrising.
  destruct (max_drawdown_invariant first rest Hpos)
    as ([peak max_dd] & Hresult & _ & _ & _ & _ & Hhit).
  cbn [fst snd] in *. rewrite Hresult. f_equal.
  destruct Hhit as [Hz | (before & after & value & pk & Hsplit & Hpk & ->)]; [exact Hz|].
  assert (Hpkpos : 0 < pk)
    by (apply Qclt_le_trans with first;
        [exact Hpos | exact (drawdown_first_le_peak _ _ _ _ _ _ Hsplit Hpk)]).
  assert (Heq : pk = value).
  { apply Qcle_antisym.
    - destruct Hpk as [Hin _]. apply in_app_or in Hin as [Hin | [<- | []]];
        [|apply Qcle_refl].
      apply in_split in Hin as (b1 & b2 & ->).
      apply (Hrising b1 b2 after pk value). rewrite Hsplit, <- app_assoc. reflexivity.
    - destruct Hpk as [_ Hall]. apply Forall_app in Hall as [_ Hlast].
      apply Forall_cons_1 in Hlast as [Hlast _]. exact Hlast. }
  rewrite Heq. field. rewrite <- Heq. apply positive_nonzero, Hpkpos.
Qed.

Lemma max_drawdown_of_rising_series_witness :
  0 < Q2Qc 100 /\ never_falls [Q2Qc 100; Q2Qc 120]
  /\ Utils.max_drawdown [Q2Qc 100; Q2Qc 120] = Ok 0.
Proof.
  assert (Hpos : 0 < Q2Qc 100) by reflexivity.
  assert (Hrising : never_falls [Q2Qc 100; Q2Qc 120]).
  { intros before between after x y Hsplit.
    destruct before as [|b0 [|b1 before]].
    - injection Hsplit as <- Hsplit. destruct between as [|c0 between].
      + injection Hsplit as <- _. discriminate.
      + injection Hsplit as _ Hsplit. destruct between; discriminate Hsplit.
    - injection Hsplit as _ _ Hsplit. destruct between; discriminate Hsplit.
    - injection Hsplit as _ _ Hsplit. destruct before; discriminate Hsplit. }
  split; [exact Hpos|]. split; [exact Hrising|].
  exact (max_drawdown_of_rising_series (Q2Qc 100) [Q2Qc 120] Hpos Hrising).
Defined.

Lemma max_drawdown_loop_raises (rest done : list float) (peak max_dd : float) :
  greatest done peak ->
  (forall e : exn,
      Utils.max_drawdown_loop rest (peak, max_dd) = Raise e -> e = ZeroDivisionError)
  /\ (Utils.max_drawdown_loop rest (peak, max_dd) = Raise ZeroDivisionError
      <-> exists (before after : list float) (value : float),
            rest = before ++ value :: after
            /\ greatest (done ++ before ++ [value]) 0).
Proof.
  revert done peak max_dd. induction rest as [|x rest IH]; intros done peak max_dd Hpeak.
  - split; [discriminate|]. split; [discriminate|].
    intros (before & after & value & Hsplit & _). destruct before; discriminate Hsplit.
  - pose proof (greatest_snoc done peak x Hpeak) as Hpeak'.
    cbn [Utils.max_drawdown_loop].
    destruct (decide ((if bool_decide (peak < x) then x else peak) = 0)) as [Hz|Hne].
    + rewrite (max_drawdown_step_zero _ _ _ Hz). cbn [mbind result_bind].
      split; [intros e [= <-]; reflexivity|]. split; [|reflexivity].
      intros _. exists [], rest, x. split; [reflexivity|].
      cbn [app]. rewrite Hz in Hpeak'. exact Hpeak'.
    + rewrite (max_drawdown_step_value _ _ _ Hne). cbn [mbind result_bind].
      destruct (IH _ _ (Py.max max_dd
                          (((if bool_decide (peak < x) then x else peak) - x)
                           / (if bool_decide (peak < x) then x else peak))) Hpeak')
        as [Hkind Hiff].
      split; [exact Hkind|]. rewrite Hiff. split.
      * intros (before & after & value & -> & Hzero).
        exists (x :: before), after, value. split; [reflexivity|].
        rewrite <- app_assoc in Hzero. exact Hzero.
      * intros (before & after & value & Hsplit & Hzero).
        destruct before as [|b before].
        -- injection Hsplit as <- <-. cbn [app] in Hzero.
           exfalso. apply Hne. exact (greatest_unique _ _ _ Hpeak' Hzero).
        -- injection Hsplit as <- ->. exists before, after, value.
           split; [reflexivity|]. rewrite <- app_assoc. exact Hzero.
Qed.

(** X16. [max_drawdown] raises [IndexError] exactly on the empty series,
    and [ZeroDivisionError] exactly when at some point of the series the
    greatest value so far is zero (a series that starts with 0 is the first
    case of it). It raises nothing else. *)
Theorem max_drawdown_errors (pnl : list float) :
  (Utils.max_drawdown pnl = Raise IndexError <-> pnl = [])
  /\ (Utils.max_drawdown pnl = Raise ZeroDivisionError
      <-> exists (before after : list float) (value : float),
            pnl = before ++ value :: after /\ greatest (before ++ [value]) 0)
  /\ (forall e : exn,
         Utils.max_drawdown pnl = Raise e -> e = IndexError \/ e = ZeroDivisionError)
  /\ (forall rest : list float, Utils.max_drawdown (0 :: rest) = Raise ZeroDivisionError).
Proof.
  assert (Hfirst : forall rest : list float,
             Utils.max_drawdown (0 :: rest) = Raise ZeroDivisionError).
  { intros rest. unfold Utils.max_drawdown. cbn [Utils.max_drawdown_loop].
    rewrite max_drawdown_step_zero; [reflexivity|].
    rewrite bool_decide_eq_false_2; [reflexivity | discriminate]. }
  destruct pnl as [|first rest].
  - split; [split; reflexivity|]. split; [|split; [|exact Hfirst]].
    + split; [discriminate|].
      intros (before & after & value & Hsplit & _). destruct before; discriminate Hsplit.
    + intros e [= <-]. left. reflexivity.
  - assert (Hself : (if bool_decide (first < first) then first else first) = first)
      by (case_bool_decide; reflexivity).
    destruct (decide (first = 0)) as [-> | Hne].
    + split; [split; [rewrite Hfirst|]; discriminate|].
      split; [|split; [|exact Hfirst]].
      * split; [|intros _; apply Hfirst].
        intros _. exists [], rest, 0. split; [reflexivity | apply greatest_singleton].
      * intros e. rewrite Hfirst. intros [= <-]. right. reflexivity.
    + assert (Hstep : exists max_dd : float,
                 Utils.max_drawdown_step (first, of_int 0) first = Ok (first, max_dd)).
      { eexists. rewrite max_drawdown_step_value; rewrite Hself; [reflexivity | exact Hne]. }
      destruct Hstep as [max_dd Hstep].
      destruct (max_drawdown_loop_raises rest [first] first max_dd (greatest_singleton first))
        as [Hkind Hiff].
      assert (Hrun : Utils.max_drawdown (first :: rest)
                     = (st ← Utils.max_drawdown_loop rest (first, max_dd); Ok (snd st))).
      { unfold Utils.max_drawdown. cbn [Utils.max_drawdown_loop]. rewrite Hstep.
        reflexivity. }
      rewrite Hrun.
      destruct (Utils.max_drawdown_loop rest (first, max_dd)) as [st|e] eqn:Hloop;
        cbn [mbind result_bind].
      * split; [split; discriminate|]. split; [|split; [discriminate | exact Hfirst]].
        split; [discriminate|].
        intros (before & after & value & Hsplit & Hzero). exfalso.
        destruct before as [|b before].
        -- injection Hsplit as <- _. cbn [app] in Hzero.
           apply Hne. exact (greatest_unique _ _ _ (greatest_singleton first) Hzero).
        -- injection Hsplit as <- ->.
           assert (Hraise : @Ok (float * float) st = Raise ZeroDivisionError);
             [|discriminate Hraise].
           apply Hiff. exists before, after, value. auto.
      * pose proof (Hkind e eq_refl) as ->.
        split; [split; discriminate|]. split; [|split; [|exact Hfirst]].
        -- split; [|reflexivity]. intros _.
           destruct (proj1 Hiff eq_refl) as (before & after & value & -> & Hzero).
           exists (first :: before), after, value. auto.
        -- intros e [= <-]. right. reflexivity.
Qed.

Lemma max_drawdown_loop_negative (rest : list float) (peak : float) :
  peak < 0 -> Forall (fun value => value < 0) rest ->
  exists peak' : float,
    peak' < 0 /\ Utils.max_drawdown_loop rest (peak, of_int 0) = Ok (peak', of_int 0).
Proof.
  revert peak. induction rest as [|x rest IH]; intros peak Hpeak Hall.
  - exists peak. split; [exact Hpeak | reflexivity].
  - apply Forall_cons_1 in Hall as [Hx Hall].
    cbn [Utils.max_drawdown_loop].
    assert (Hnew : (if bool_decide (peak < x) then x else peak) < 0
                   /\ x <= (if bool_decide (peak < x) then x else peak)).
    { case_bool_decide as Hlt; split.
      - exact Hx.
      - apply Qcle_refl.
      - exact Hpeak.
      - apply Qcnot_lt_le, Hlt. }
    destruct Hnew as [Hneg Hle].
    rewrite max_drawdown_step_value by (intros Hz; rewrite Hz in Hneg; discriminate Hneg).
    cbn [mbind result_bind].
    rewrite max_left; [exact (IH _ Hneg Hall)|].
    apply div_nonpos; [|exact Hneg]. clear -Hle. qc_to_q. lra.
Qed.

(** X17. For a series of values that are all below zero [max_drawdown]
    returns 0, however far the series falls: the fall from the greatest
    value so far is divided by that value, which is negative, so no
    quotient is above the initial 0. *)
Theorem max_drawdown_of_negative_series (first : float) (rest : list float) :
  Forall (fun value => value < 0) (first :: rest) ->
  Utils.max_drawdown (first :: rest) = Ok 0.
Proof.
  intros Hall. unfold Utils.max_drawdown.
  pose proof (Forall_cons_1 _ _ _ Hall) as [Hfirst _].
  destruct (max_drawdown_loop_negative (first :: rest) first Hfirst Hall)
    as (peak' & _ & ->).
  reflexivity.
Qed.

Lemma max_drawdown_of_negative_series_witness :
  Forall (fun value => value < 0) [Q2Qc (-1); Q2Qc (-100)]
  /\ Utils.max_drawdown [Q2Qc (-1); Q2Qc (-100)] = Ok 0.
Proof.
  assert (Hall : Forall (fun value => value < 0) [Q2Qc (-1); Q2Qc (-100)])
    by (repeat (apply Forall_cons_2; [reflexivity|]); apply Forall_nil_2).
  split; [exact Hall|].
  exact (max_drawdown_of_negative_series (Q2Qc (-1)) [Q2Qc (-100)] Hall).
Defined.

(** ** The order book of utils.py *)

Lemma of_int_pos (n : Z) : (0 < n)%Z -> 0 < of_int n.
Proof.
  intros Hn. unfold of_int, Qclt. cbn [this Q2Qc]. rewrite !Qred_correct.
  change 0%Q with (inject_Z 0). rewrite <- Zlt_Qlt. exact Hn.
Qed.


Lemma range_In (lo hi i : Z) : In i (Py.range lo hi) -> (lo <= i < hi)%Z.
Proof.
  unfold Py.range. rewrite in_map_iff. intros (k & <- & Hk).
  apply in_seq in Hk. lia.
Qed.

Lemma range_lookup_lt (lo hi : Z) (k : nat) :
  (k < Z.to_nat (hi - lo))%nat -> Py.range lo hi !! k = Some (lo + Z.of_nat k)%Z.
Proof.
  intros Hk. unfold Py.range. rewrite list_lookup_fmap, lookup_seq_lt by exact Hk.
  reflexivity.
Qed.

Lemma comprehension_map {A B : Type} (f : A -> result B) (g : A -> B) (l : list A) :
  (forall x : A, In x l -> f x = Ok (g x)) -> comprehension f l = Ok (map g l).
Proof.
  induction l as [|x l IH]; intros Hf; [reflexivity|].
  cbn [comprehension map]. rewrite (Hf x) by (left; reflexivity).
  cbn [mbind result_bind]. rewrite IH by (intros y Hy; apply Hf; right; exact Hy).
  reflexivity.
Qed.

Lemma order_book_value (bid_quantity ask_quantity : Z -> Z)
    (mid_price : float) (depth : Z) (max_spread : float) :
  Utils.simulate_order_book bid_quantity ask_quantity mid_price depth max_spread
  = Ok (map (fun i : Z =>
               (mid_price * (1 - max_spread * of_int (i + 1) / of_int depth),
                bid_quantity i)) (Py.range 0 depth),
        map (fun i : Z =>
               (mid_price * (1 + max_spread * of_int (i + 1) / of_int depth),
                ask_quantity i)) (Py.range 0 depth)).
Proof.
  assert (Hdepth : forall i : Z, In i (Py.range 0 depth) -> of_int depth <> 0).
  { intros i Hin. apply range_In in Hin. apply positive_nonzero, of_int_pos. lia. }
  assert (Hside : forall (sign : float -> float -> float) (quantity : Z -> Z),
             comprehension
               (fun i : Z =>
                  step ← Py.div (max_spread * of_int (i + 1)) (of_int depth);
                  Ok (mid_price * sign (of_int 1) step, quantity i))
               (Py.range 0 depth)
             = Ok (map (fun i : Z =>
                          (mid_price * sign 1 (max_spread * of_int (i + 1) / of_int depth),
                           quantity i)) (Py.range 0 depth))).
  { intros sign quantity. apply comprehension_map.
    intros i Hin. rewrite (div_nonzero _ _ (Hdepth i Hin)). reflexivity. }
  unfold Utils.simulate_order_book.
  rewrite (Hside Qcminus bid_quantity). cbn [mbind result_bind].
  rewrite (Hside Qcplus ask_quantity). reflexivity.
Qed.




(** X18. [simulate_order_book] returns for every depth, zero and negative
    ones included, where the division by [depth] is never reached: both
    sides have [depth] levels (none for a depth of zero or less), and
    level [k] is priced at [mid_price * (1 -/+ max_spread * (k+1) / depth)]
    and carries the quantity drawn for it. *)
Theorem order_book_levels (bid_quantity ask_quantity : Z -> Z)
    (mid_price : float) (depth : Z) (max_spread : float) :
  exists bids asks : list (float * Z),
    Utils.simulate_order_book bid_quantity ask_quantity mid_price depth max_spread
    = Ok (bids, asks)
    /\ length bids = Z.to_nat depth /\ length asks = Z.to_nat depth
    /\ ((depth <= 0)%Z -> bids = [] /\ asks = [])
    /\ (forall k : nat, (k < Z.to_nat depth)%nat ->
          bids !! k
          = Some (mid_price * (1 - max_spread * of_int (Z.of_nat k + 1) / of_int depth),
                  bid_quantity (Z.of_nat k))
          /\ asks !! k
             = Some (mid_price * (1 + max_spread * of_int (Z.of_nat k + 1) / of_int depth),
                     ask_quantity (Z.of_nat k))).
Proof.
  eexists _, _. split; [apply order_book_value|].
  rewrite !length_map, !range_length, Z.sub_0_r.
  split; [reflexivity|]. split; [reflexivity|]. split.
  - intros Hdepth. rewrite (range_empty 0 depth Hdepth). split; reflexivity.
  - intros k Hk. rewrite !list_lookup_fmap, range_lookup_lt by lia.
    rewrite Z.add_0_l. split; reflexivity.
Qed.

Lemma order_book_levels_witness :
  exists bids asks : list (float * Z),
    Utils.simulate_order_book (fun _ => 10%Z) (fun _ => 7%Z) (Q2Qc 100) 2 (Q2Qc 0.5)
    = Ok (bids, asks)
    /\ length bids = 2%nat
    /\ bids !! 0%nat = Some (Q2Qc 75, 10%Z) /\ asks !! 0%nat = Some (Q2Qc 125, 7%Z).
Proof.
  destruct (order_book_levels (fun _ => 10%Z) (fun _ => 7%Z) (Q2Qc 100) 2 (Q2Qc 0.5))
    as (bids & asks & Hbook & Hbids & _ & _ & Hlevel).
  destruct (Hlevel 0%nat ltac:(cbn; lia)) as [Hbid Hask].
  exists bids, asks. split; [exact Hbook|]. split; [exact Hbids|].
  rewrite Hbid, Hask. split; do 2 f_equal; apply Qc_is_canon; reflexivity.
Defined.



(** ** The returns of a price series *)

Lemma calculate_returns_step `{Numpy} (previous current : float) (rest : list float) :
  Utils.calculate_returns (previous :: current :: rest)
  = (ratio ← Py.div current previous;
     returns ← Utils.calculate_returns (current :: rest);
     Ok (np_log ratio :: returns)).
Proof. reflexivity. Qed.

(** X20. [calculate_returns] raises [ZeroDivisionError] exactly when a
    price other than the last one is zero, and raises nothing else. When it
    returns, the list is one shorter than the series (empty for an empty
    series and for a single price) and its entry [k] is the logarithm of
    [prices[k+1] / prices[k]]. *)
Theorem calculate_returns_behaviour `{Numpy} (prices : list float) :
  (Utils.calculate_returns prices = Raise ZeroDivisionError
   <-> exists before after : list float, prices = before ++ 0 :: after /\ after <> [])
  /\ (forall e : exn, Utils.calculate_returns prices = Raise e -> e = ZeroDivisionError)
  /\ (forall returns : list float,
         Utils.calculate_returns prices = Ok returns ->
         length returns = Nat.pred (length prices)
         /\ forall (k : nat) (previous current : float),
              prices !! k = Some previous -> prices !! S k = Some current ->
              returns !! k = Some (np_log (current / previous))).
Proof.
  induction prices as [|previous rest IH].
  - split; [split; [discriminate|]|split; [discriminate|]].
    + intros (before & after & Hsplit & _). destruct before; discriminate Hsplit.
    + intros returns [= <-]. split; [reflexivity|].
      intros k previous current Hk. rewrite lookup_nil in Hk. discriminate Hk.
  - destruct rest as [|current rest].
    + split; [split; [discriminate|]|split; [discriminate|]].
      * intros (before & after & Hsplit & Hafter). exfalso.
        destruct before as [|b before].
        -- injection Hsplit as _ <-. apply Hafter. reflexivity.
        -- injection Hsplit as _ Hsplit. destruct before; discriminate Hsplit.
      * intros returns [= <-]. split; [reflexivity|].
        intros k p c _ Hk. discriminate Hk.
    + rewrite calculate_returns_step.
      destruct (decide (previous = 0)) as [-> | Hne].
      * rewrite div_zero. cbn [mbind result_bind].
        split; [split; [|reflexivity]|split; [|discriminate]].
        -- intros _. exists [], (current :: rest). split; [reflexivity | discriminate].
        -- intros e [= <-]. reflexivity.
      * rewrite (div_nonzero _ _ Hne). cbn [mbind result_bind].
        destruct IH as (IHzero & IHkind & IHvalue).
        destruct (Utils.calculate_returns (current :: rest)) as [returns|e];
          cbn [mbind result_bind].
        -- split; [split; [discriminate|]|split; [discriminate|]].
           ++ intros (before & after & Hsplit & Hafter). exfalso.
              destruct before as [|b before].
              ** injection Hsplit as -> _. apply Hne. reflexivity.
              ** injection Hsplit as _ Hsplit.
                 assert (Hraise : @Ok (list float) returns = Raise ZeroDivisionError);
                   [|discriminate Hraise].
                 apply IHzero. exists before, after. split; [exact Hsplit | exact Hafter].
           ++ intros returns' [= <-].
              destruct (IHvalue returns eq_refl) as [Hlen Hentries].
              split; [cbn [length Nat.pred] in *; rewrite Hlen; reflexivity|].
              intros [|k] p c Hp Hc.
              ** injection Hp as <-. injection Hc as <-. reflexivity.
              ** exact (Hentries k p c Hp Hc).
        -- pose proof (IHkind e eq_refl) as ->.
           split; [split; [|reflexivity]|split; [|discriminate]].
           ++ intros _. destruct (proj1 IHzero eq_refl) as (before & after & Hsplit & Hafter).
              exists (previous :: before), after. rewrite Hsplit. split; [reflexivity | exact Hafter].
           ++ intros e [= <-]. reflexivity.
Qed.

(** ** The program as [main] runs it *)

(** X21. When the name given to [main] is bound to [SimpleMarketMaker] or
    to nothing in the namespace of market_maker.py, [main] gets through its
    run with the configured market (price 100, volatility 0.02) and the
    configured 63 days, for every sequence of random draws: the log has one
    record for each of the days 1 to 63, each with [0.01 <= bid <= ask] and
    a P&L of zero or more, the market's day counter ends at 63 and the
    final score is zero or more. The two fallback lines are printed for an
    unbound name and nothing for a bound one. *)
Theorem main_runs_the_default_maker `{Libm} (globals : gmap string PyObject)
    (oracle : Z -> Random.Draws) (market_maker_argument : string) :
  globals !! market_maker_argument = Some Class_SimpleMarketMaker
  \/ globals !! market_maker_argument = None ->
  exists (score : float) (g' : Game.t SimpleMarketMaker.t) (printed : list string),
    main globals oracle market_maker_argument = (inr (score, g'), printed)
    /\ (globals !! market_maker_argument = Some Class_SimpleMarketMaker -> printed = [])
    /\ (globals !! market_maker_argument = None ->
        printed = [("Error: MarketMaker class '" ++ market_maker_argument
                    ++ "' not found.")%string;
                   "Using SimpleMarketMaker as fallback."])
    /\ map record_day (Game.daily_results g') = Py.range 1 64
    /\ length (Game.daily_results g') = 63%nat
    /\ Forall sound_record (Game.daily_results g')
    /\ Market.day (Game.market g') = 63%Z
    /\ Game.market_maker g' = SimpleMarketMaker.default
    /\ 0 <= score.
Proof.
  intros Hname.
  set (game := Game.init (Market.init Config.INITIAL_PRICE Config.INITIAL_VOLATILITY)
                 ChallengeManager.init SimpleMarketMaker.default Config.SIMULATION_DAYS).
  destruct (run_loop_succeeds oracle (Py.range 1 (Game.days game + 1)) game)
    as [g' Hloop]; [discriminate | discriminate |].
  assert (Hrun : Game.run oracle game = Ok (Game.calculate_score g', g'))
    by (unfold Game.run; rewrite Hloop; reflexivity).
  assert (Hresolve : exists printed : list string,
             resolve_market_maker globals market_maker_argument
             = (Ok (Instance_SimpleMarketMaker SimpleMarketMaker.default), printed)
             /\ (globals !! market_maker_argument = Some Class_SimpleMarketMaker ->
                 printed = [])
             /\ (globals !! market_maker_argument = None ->
                 printed = [("Error: MarketMaker class '" ++ market_maker_argument
                             ++ "' not found.")%string;
                            "Using SimpleMarketMaker as fallback."])).
  { unfold resolve_market_maker. destruct Hname as [Hbound | Hunbound].
    - rewrite (get_market_maker_class_bound _ _ _ Hbound). eexists.
      split; [reflexivity|]. split; [reflexivity|].
      rewrite Hbound. discriminate.
    - rewrite (get_market_maker_class_unbound _ _ Hunbound). eexists.
      split; [reflexivity|]. split; [|reflexivity].
      rewrite Hunbound. discriminate. }
  destruct Hresolve as (printed & Hresolve & Hquiet & Hfallback).
  exists (Game.calculate_score g'), g', printed.
  split; [unfold main; rewrite Hresolve; fold game; rewrite Hrun; reflexivity|].
  split; [exact Hquiet|]. split; [exact Hfallback|].
  pose proof (run_loop_inv oracle _ _ _ Hloop) as ((recs & Hrecs & Hdays & _) & _ & Hmm & _).
  pose proof (run_loop_day_counter oracle _ _ _ Hloop) as Hcounter.
  assert (Hm : 0 <= SimpleMarketMaker.spread_multiplier (Game.market_maker game))
    by discriminate.
  pose proof (run_loop_simple_maker oracle _ _ _ Hm (Forall_nil_2 _) Hloop)
    as [Hsound _].
  cbn [Game.daily_results game Game.init app] in Hrecs. rewrite Hrecs.
  split; [exact Hdays|].
  split; [rewrite <- (length_map record_day), Hdays, range_length; reflexivity|].
  split; [rewrite <- Hrecs; exact Hsound|].
  split; [rewrite Hcounter, range_length; reflexivity|].
  split; [exact Hmm | apply calculate_score_nonneg].
Qed.

Lemma main_runs_the_default_maker_witness :
  (market_maker_globals !! "NoSuchMaker" = Some Class_SimpleMarketMaker
   \/ market_maker_globals !! "NoSuchMaker" = None)
  /\ exists (score : float) (g' : Game.t SimpleMarketMaker.t),
       @main sample_exp market_maker_globals sample_oracle "NoSuchMaker"
       = (inr (score, g'),
          ["Error: MarketMaker class 'NoSuchMaker' not found.";
           "Using SimpleMarketMaker as fallback."])
       /\ length (Game.daily_results g') = 63%nat.
Proof.
  assert (Hunbound : market_maker_globals !! "NoSuchMaker" = None) by reflexivity.
  split; [right; exact Hunbound|].
  destruct (@main_runs_the_default_maker sample_exp market_maker_globals sample_oracle
              "NoSuchMaker" (or_intror Hunbound))
    as (score & g' & printed & Hmain & _ & Hprinted & _ & Hlength & _).
  exists score, g'. rewrite Hmain, (Hprinted Hunbound). split; [reflexivity | exact Hlength].
Defined.
